(** * x-bookmarks: the date-range filter, the Markdown renderer and the two
    command-line drivers

    A shallow embedding of
      - [skills/x-bookmarks/convert-bookmarks-to-md.js]  (module [Convert])
      - [filter-bookmarks.js]                            (module [FilterTool])
    together with the part of the JavaScript run time the two scripts rely
    on (module [JS]): truthiness, [String.prototype.split], [startsWith],
    global string replacement, [Number] on strings, and the [Date] object
    with its time value, its constructor from calendar fields, [setHours]
    and the relational operators on dates. *)

From Stdlib Require Import ZArith Lia Ascii.
From stdpp Require Import base option list strings gmap pretty.

(* ===================================================================== *)
(** * The JavaScript run time used by the scripts                         *)
(* ===================================================================== *)

Module JS.

(** ** Strings *)

(** ToBoolean on a string: only the empty string is falsy. *)
Definition truthy (s : string) : bool := negb (String.eqb s "").

(** ToBoolean on a string that may be [undefined] or [null]. *)
Definition truthy_opt (o : option string) : bool :=
  match o with
  | Some s => truthy s
  | None => false
  end.

(** [s.startsWith(p)] *)
Fixpoint startsWith (p s : string) {struct s} : bool :=
  match p, s with
  | EmptyString, _ => true
  | String a p', String b s' => Ascii.eqb a b && startsWith p' s'
  | String _ _, EmptyString => false
  end.

(** [s.split(sep)] for a one-character separator.  The result is never
    empty: the empty string splits into one empty segment. *)
Fixpoint split (sep : ascii) (s : string) : list string :=
  match s with
  | EmptyString => [EmptyString]
  | String c rest =>
      if Ascii.eqb c sep then EmptyString :: split sep rest
      else match split sep rest with
           | w :: ws => String c w :: ws
           | [] => [String c EmptyString]
           end
  end.

(** [s.replace(/c/g, by)]: every occurrence of the character [c] is
    replaced, left to right. *)
Fixpoint replaceAll (c : ascii) (by_ : string) (s : string) : string :=
  match s with
  | EmptyString => EmptyString
  | String a rest =>
      if Ascii.eqb a c then by_ +:+ replaceAll c by_ rest
      else String a (replaceAll c by_ rest)
  end.

(** [xs.join(sep)] on an array of strings. *)
Fixpoint join (sep : string) (xs : list string) : string :=
  match xs with
  | [] => ""
  | [x] => x
  | x :: rest => x +:+ sep +:+ join sep rest
  end.

(** ** Numbers

    The scripts only produce numbers by applying [Number] to the segments
    of a date argument and by subtracting one.  A number is [NaN] or an
    integer. *)

Inductive number : Type :=
  | NaN
  | Int (z : Z).

Definition is_space (c : ascii) : bool :=
  let n := Ascii.N_of_ascii c in
  (N.eqb n 32 || (N.leb 9 n && N.leb n 13))%bool.

Fixpoint trimStart (s : string) : string :=
  match s with
  | String c rest => if is_space c then trimStart rest else s
  | EmptyString => EmptyString
  end.

Definition digit (c : ascii) : option Z :=
  let n := Ascii.N_of_ascii c in
  if (N.leb 48 n && N.leb n 57)%bool then Some (Z.of_N n - 48)%Z else None.

(** Value of a run of decimal digits followed by optional white space only;
    [acc] is the value read so far and [seen] records that a digit was read. *)
Fixpoint digits (acc : Z) (seen : bool) (s : string) : option Z :=
  match s with
  | EmptyString => if seen then Some acc else None
  | String c rest =>
      match digit c with
      | Some d => digits (10 * acc + d)%Z true rest
      | None =>
          if (seen && is_space c && String.eqb (trimStart rest) "")%bool
          then Some acc else None
      end
  end.

(** [Number(s)] (StringToNumber) on the decimal integer literals: optional
    surrounding white space, an optional sign and decimal digits; the empty
    or all-blank string is 0.  Every other string is mapped to [NaN]; for
    the literal forms of ECMAScript that are not integers in decimal
    notation (fractions, exponents, radix prefixes, [Infinity]) this is an
    approximation; the statements below are about dates of the form
    YYYY-MM-DD, about segments that start no numeric literal, or hold
    whatever number a segment denotes. *)
Definition Number (s : string) : number :=
  match trimStart s with
  | EmptyString => Int 0
  | String c rest =>
      if Ascii.eqb c "+" then
        match digits 0 false rest with Some z => Int z | None => NaN end
      else if Ascii.eqb c "-" then
        match digits 0 false rest with Some z => Int (- z) | None => NaN end
      else
        match digits 0 false (String c rest) with
        | Some z => Int z
        | None => NaN
        end
  end.

(** ToNumber of a value that may be [undefined]. *)
Definition ToNumber (o : option number) : number :=
  match o with
  | Some n => n
  | None => NaN
  end.

(** [n - k] *)
Definition sub (n : number) (k : Z) : number :=
  match n with
  | NaN => NaN
  | Int z => Int (z - k)
  end.

(** ** Dates

    A Date object holds a time value: [NaN] (an Invalid Date) or a whole
    number of milliseconds since the epoch, of absolute value at most
    8.64e15. *)

Inductive Date : Type :=
  | InvalidDate
  | Time (t : Z).

Global Instance Date_eq_dec : EqDecision Date.
Proof. solve_decision. Defined.

Section calendar.
Local Open Scope Z_scope.

Definition msPerDay : Z := 86400000.
Definition maxTime : Z := 8640000000000000.

Definition Day (t : Z) : Z := t / msPerDay.

Definition DayFromYear (y : Z) : Z :=
  365 * (y - 1970) + (y - 1969) / 4 - (y - 1901) / 100 + (y - 1601) / 400.

Definition InLeapYear (y : Z) : bool :=
  (y mod 4 =? 0) && (negb (y mod 100 =? 0) || (y mod 400 =? 0)).

(** Day within the year on which month [m] (0 to 11) starts. *)
Definition monthStart (leap : bool) (m : Z) : Z :=
  let l := if leap then 1 else 0 in
  match m with
  | 0 => 0
  | 1 => 31
  | 2 => 59 + l
  | 3 => 90 + l
  | 4 => 120 + l
  | 5 => 151 + l
  | 6 => 181 + l
  | 7 => 212 + l
  | 8 => 243 + l
  | 9 => 273 + l
  | 10 => 304 + l
  | _ => 334 + l
  end.

Definition TimeClip (t : Z) : Date :=
  if Z.abs t <=? maxTime then Time t else InvalidDate.

(** MakeDay: the day number of the first of month [month mod 12] of year
    [year + floor(month / 12)], plus [date - 1]; NaN when that first of
    the month is no time value. *)
Definition MakeDay (year month date : Z) : option Z :=
  let ym := year + month / 12 in
  let mn := month mod 12 in
  let first := DayFromYear ym + monthStart (InLeapYear ym) mn in
  if Z.abs (first * msPerDay) <=? maxTime then Some (first + date - 1)
  else None.

Definition MakeTime (hour min sec ms : Z) : Z :=
  hour * 3600000 + min * 60000 + sec * 1000 + ms.

Definition MakeDate (day time : Z) : Z := day * msPerDay + time.

(** Years 0 to 99 given to the Date constructor mean 1900 to 1999. *)
Definition MakeFullYear (y : Z) : Z :=
  if (0 <=? y) && (y <=? 99) then 1900 + y else y.
End calendar.

(** Local time is modelled with a fixed offset [tza] (milliseconds east of
    Greenwich): no daylight-saving transitions. *)
Definition LocalTime (tza t : Z) : Z := (t + tza)%Z.
Definition UTC (tza t : Z) : Z := (t - tza)%Z.

(** [new Date(year, month, date)]: the three arguments are converted to
    numbers; the result is local midnight of the day they denote, or an
    Invalid Date when one of them is [NaN] or the day is out of range. *)
Definition newDate (tza : Z) (year month date : number) : Date :=
  match year, month, date with
  | Int y, Int m, Int dt =>
      match MakeDay (MakeFullYear y) m dt with
      | Some day => TimeClip (UTC tza (MakeDate day (MakeTime 0 0 0 0)))
      | None => InvalidDate
      end
  | _, _, _ => InvalidDate
  end.

(** [d.setHours(hour, min, sec, ms)]: the new time value of [d]. *)
Definition setHours (tza : Z) (d : Date) (hour min sec ms : Z) : Date :=
  match d with
  | InvalidDate => InvalidDate
  | Time t =>
      TimeClip (UTC tza (MakeDate (Day (LocalTime tza t))
                                  (MakeTime hour min sec ms)))
  end.

(** The relational operators on two Date objects compare the time values;
    a comparison with [NaN] on either side is false. *)
Definition lt (a b : Date) : bool :=
  match a, b with
  | Time x, Time y => (x <? y)%Z
  | _, _ => false
  end.

Definition gt (a b : Date) : bool := lt b a.

Definition le (a b : Date) : bool :=
  match a, b with
  | Time x, Time y => (x <=? y)%Z
  | _, _ => false
  end.

Definition ge (a b : Date) : bool := le b a.

End JS.

(* ===================================================================== *)
(** * Data model                                                          *)
(* ===================================================================== *)

(** A bookmark record as the scripts read it.  A field that is absent (or
    [null]) is [None]. *)

Record Author : Type := mkAuthor {
  name : option string;
  username : option string
}.

(** A quoted tweet has the shape of a bookmark; the renderer reads its
    [author] and [text] only. *)
Record QuotedTweet : Type := mkQuoted {
  qt_author : option Author;
  qt_text : option string
}.

(** The identifier is a string or a number, interpolated into the link. *)
Inductive Id : Type :=
  | IdString (s : string)
  | IdNumber (n : Z)
  | IdUndefined.

Record Bookmark : Type := mkBookmark {
  id : Id;
  createdAt : option string;
  text : option string;
  author : option Author;
  likeCount : option Z;
  retweetCount : option Z;
  replyCount : option Z;
  quotedTweet : option QuotedTweet
}.

Global Instance Author_eq_dec : EqDecision Author.
Proof. solve_decision. Defined.
Global Instance QuotedTweet_eq_dec : EqDecision QuotedTweet.
Proof. solve_decision. Defined.
Global Instance Id_eq_dec : EqDecision Id.
Proof. solve_decision. Defined.
Global Instance Bookmark_eq_dec : EqDecision Bookmark.
Proof. solve_decision. Defined.

(** Parsed command-line options; [None] is [null]. *)
Record Options : Type := mkOptions {
  input : option string;
  output : option string;
  from : option JS.Date;
  to : option JS.Date
}.

Global Instance Options_eq_dec : EqDecision Options.
Proof. solve_decision. Defined.

(* ===================================================================== *)
(** * The host: what the scripts get from Node.js and the machine         *)
(* ===================================================================== *)

(** A call that returns a value or throws an [Error] with a message. *)
Inductive result (A : Type) : Type :=
  | Ok (a : A)
  | Throw (message : string).
Arguments Ok {A} a.
Arguments Throw {A} message.

(** What [JSON.parse] returned: an array of records, or another value. *)
Inductive Json : Type :=
  | JArray (records : list Bookmark)
  | JOther.

Class Host : Type := {
  (** offset of local time from UTC, in milliseconds *)
  LocalTZA : Z;
  (** [new Date(s)] for a string [s]: the format accepted is up to the
      engine; an unparseable string gives an Invalid Date *)
  Date_parse : string → JS.Date;
  (** [d.toLocaleDateString('en-US', {...})] *)
  toLocaleDateString : JS.Date → string;
  (** [new Date().toISOString().split('T')[0]] *)
  today : string;
  existsSync : string → bool;
  readFileSync : string → result string;
  JSON_parse : string → result Json;
  JSON_stringify : list Bookmark → string;
  (** [None]: written; [Some m]: threw with message [m] *)
  writeFileSync : string → string → option string
}.

(** What a run of a script does, in order, and how it ends. *)
Inductive Event : Type :=
  | Stdout (line : string)
  | Stderr (line : string)
  | FsExists (path : string)
  | FsRead (path : string)
  | FsWrite (path : string) (content : string).

Record Outcome : Type := mkOutcome {
  events : list Event;
  status : Z
}.


(* ===================================================================== *)
(** * Code shared by the two scripts                                      *)
(* ===================================================================== *)

(** [parseTwitterDate], [parseUserDate] and [parseArgs] have the same text
    in both files (lines 15-49 of the converter, and the same functions of
    the filter tool). *)

Section shared.
Context `{Host}.

(** [new Date(dateStr)]; an absent [createdAt] is [new Date(undefined)],
    an Invalid Date. *)
Definition parseTwitterDate (dateStr : option string) : JS.Date :=
  match dateStr with
  | Some s => Date_parse s
  | None => JS.InvalidDate
  end.

(** [const [year, month, day] = dateStr.split('-').map(Number);
     return new Date(year, month - 1, day);] *)
Definition parseUserDate (dateStr : string) : JS.Date :=
  let parts := JS.Number <$> JS.split "-" dateStr in
  let year := parts !! 0%nat in
  let month := parts !! 1%nat in
  let day := parts !! 2%nat in
  JS.newDate LocalTZA (JS.ToNumber year)
             (JS.sub (JS.ToNumber month) 1)
             (JS.ToNumber day).

Definition initial : Options :=
  {| input := None; output := None; from := None; to := None |}.

(** Which branch of the [if]/[else if] chain of the loop body is taken
    for [arg], given the next token and the options so far. *)
Inductive Branch : Type :=
  | TakeFrom
  | TakeTo
  | TakeOutput
  | TakeInput
  | NoBranch.

Definition branch (result : Options) (arg : string) (next : option string)
  : Branch :=
  if String.eqb arg "--from" && JS.truthy_opt next then TakeFrom
  else if String.eqb arg "--to" && JS.truthy_opt next then TakeTo
  else if (String.eqb arg "-o" || String.eqb arg "--output")
          && JS.truthy_opt next then TakeOutput
  else if negb (JS.startsWith "-" arg)
          && negb (JS.truthy_opt (input result)) then TakeInput
  else NoBranch.

(** One execution of the loop body at index [i]: the index after the
    body (before the loop's own [i++]) and the options. *)
Definition body (args : list string) (i : nat) (result : Options)
  : nat * Options :=
  let arg := default "" (args !! i) in
  let next := args !! (i + 1)%nat in
  match branch result arg next with
  | TakeFrom =>
      ((i + 1)%nat,
       {| input := input result; output := output result;
          from := Some (parseUserDate (default "" next));
          to := to result |})
  | TakeTo =>
      ((i + 1)%nat,
       {| input := input result; output := output result;
          from := from result;
          to := Some (JS.setHours LocalTZA (parseUserDate (default "" next))
                                  23 59 59 999) |})
  | TakeOutput =>
      ((i + 1)%nat,
       {| input := input result; output := next;
          from := from result; to := to result |})
  | TakeInput =>
      (i,
       {| input := Some arg; output := output result;
          from := from result; to := to result |})
  | NoBranch => (i, result)
  end.

(** [for (let i = 0; i < args.length; i++) { body }]; the loop runs at
    most [args.length] times, which bounds [fuel]. *)
Fixpoint loop (fuel : nat) (args : list string) (i : nat) (result : Options)
  : Options :=
  match fuel with
  | O => result
  | S fuel' =>
      if (i <? length args)%nat then
        let '(i', result') := body args i result in
        loop fuel' args (S i') result'
      else result
  end.

Definition parseArgs (args : list string) : Options :=
  loop (length args) args 0 initial.

(** The options with which the loop reaches index [k], if it does: an
    index is not reached when the token there was taken as the value of
    the flag before it. *)
Fixpoint reach (fuel : nat) (args : list string) (i : nat) (result : Options)
         (k : nat) : option Options :=
  match fuel with
  | O => None
  | S fuel' =>
      if (i <? length args)%nat then
        if (i =? k)%nat then Some result
        else let '(i', result') := body args i result in
             reach fuel' args (S i') result' k
      else None
  end.

Definition reached (args : list string) (k : nat) : option Options :=
  reach (length args) args 0 initial k.

(** The loop body seen from the token and the one after it: the new
    options, and whether the next token was taken as a value. *)
Definition consume (result : Options) (arg : string) (next : option string)
  : Options * bool :=
  match branch result arg next with
  | TakeFrom =>
      ({| input := input result; output := output result;
          from := Some (parseUserDate (default "" next));
          to := to result |}, true)
  | TakeTo =>
      ({| input := input result; output := output result;
          from := from result;
          to := Some (JS.setHours LocalTZA (parseUserDate (default "" next))
                                  23 59 59 999) |}, true)
  | TakeOutput =>
      ({| input := input result; output := next;
          from := from result; to := to result |}, true)
  | TakeInput =>
      ({| input := Some arg; output := output result;
          from := from result; to := to result |}, false)
  | NoBranch => (result, false)
  end.

(** The loop as a walk down the list of the tokens still to be read. *)
Fixpoint run (fuel : nat) (args : list string) (result : Options)
  : Options :=
  match fuel, args with
  | S fuel', arg :: rest =>
      let '(result', took) := consume result arg (head rest) in
      run fuel' (if took then tail rest else rest) result'
  | _, _ => result
  end.

(** The options with which the walk reaches the token at offset [k]. *)
Fixpoint visit (fuel : nat) (args : list string) (result : Options)
         (k : nat) : option Options :=
  match fuel, args with
  | S fuel', arg :: rest =>
      match k with
      | O => Some result
      | S k' =>
          let '(result', took) := consume result arg (head rest) in
          if took then
            match k' with
            | O => None
            | S k'' => visit fuel' (tail rest) result' k''
            end
          else visit fuel' rest result' k'
      end
  | _, _ => None
  end.
End shared.

(** The test of the filter callback, the same in both files:
    [if (fromDate && createdAt < fromDate) return false;
     if (toDate && createdAt > toDate) return false;
     return true;]
    A Date object is truthy, also an invalid one; [null] is not. *)
Definition keeps `{Host} (fromDate toDate : option JS.Date) (bookmark : Bookmark)
  : bool :=
  let createdAt := parseTwitterDate (createdAt bookmark) in
  if match fromDate with
     | Some f => JS.lt createdAt f
     | None => false
     end then false
  else if match toDate with
          | Some t => JS.gt createdAt t
          | None => false
          end then false
  else true.

(** Arrays are objects in a store; a variable holds a reference.
    [Array.prototype.filter] allocates a new array and leaves its receiver
    as it is. *)
Abbreviation Ref := nat (only parsing).
Abbreviation Store := (gmap nat (list Bookmark)).

Definition alloc (σ : Store) (xs : list Bookmark) : Ref * Store :=
  let r := fresh (dom σ) in (r, <[r := xs]> σ).

Definition newline : string := String (Ascii.ascii_of_nat 10) EmptyString.

(** [args.includes(x)] *)
Definition includes (x : string) (args : list string) : bool :=
  bool_decide (x ∈ args).

(** A path between the double quotes the messages put around it. *)
Definition quote (s : string) : string :=
  String (Ascii.ascii_of_nat 34) (s +:+ String (Ascii.ascii_of_nat 34) EmptyString).

(** The separator of the two counts in the summary line (the arrow of the
    filter tool; the converter's source holds the same arrow in another
    encoding). *)
Definition arrow : string := " → ".

(* ===================================================================== *)
(** * convert-bookmarks-to-md.js                                          *)
(* ===================================================================== *)

Module Convert.
Section convert.
Context `{Host}.

(** Lines 51-60: with both bounds unset the argument itself is returned. *)
Definition filterByDate (bookmarks : list Bookmark)
           (fromDate toDate : option JS.Date) : list Bookmark :=
  match fromDate, toDate with
  | None, None => bookmarks
  | _, _ => filter (λ b, keeps fromDate toDate b) bookmarks
  end.

(** The same on references: which array is returned, and the store after
    the call.  [None]: the reference is dangling. *)
Definition filterByDate_ref (σ : Store) (bookmarks : Ref)
           (fromDate toDate : option JS.Date) : option (Ref * Store) :=
  match fromDate, toDate with
  | None, None => Some (bookmarks, σ)
  | _, _ =>
      xs ← σ !! bookmarks;
      Some (alloc σ (filter (λ b, keeps fromDate toDate b) xs))
  end.

(** Lines 62-72. *)
Definition formatDate (dateStr : option string) : string :=
  if JS.truthy_opt dateStr then
    toLocaleDateString (parseTwitterDate dateStr)
  else "Unknown date".

(** Lines 74-79. *)
Definition escapeMarkdown (text : string) : string :=
  if JS.truthy text then
    JS.replaceAll ">" "&gt;" (JS.replaceAll "<" "&lt;" text)
  else "".

(** [x || d] for an optional string. *)
Definition or_else (x : option string) (d : string) : string :=
  match x with
  | Some s => if JS.truthy s then s else d
  | None => d
  end.

(** [a?.name], [a?.username] *)
Definition author_name (a : option Author) : option string := a ≫= name.
Definition author_username (a : option Author) : option string :=
  a ≫= username.

(** Interpolation of a count ([x ?? 0]) and of the identifier. *)
Definition count (x : option Z) : string := pretty (default 0%Z x).

Definition id_string (i : Id) : string :=
  match i with
  | IdString s => s
  | IdNumber n => pretty n
  | IdUndefined => "undefined"
  end.

(** Lines 112-120: the lines pushed for a quoted tweet. *)
Definition quotedLines (q : option QuotedTweet) : list string :=
  match q with
  | Some qt =>
      let qtAuthor := or_else (author_name (qt_author qt)) "Unknown" in
      let qtUsername := or_else (author_username (qt_author qt)) "unknown" in
      let qtText := escapeMarkdown (or_else (qt_text qt) "") in
      [ "";
        "> **Quoted: " +:+ qtAuthor +:+ " (@" +:+ qtUsername +:+ ")**";
        "> " +:+ JS.join (newline +:+ "> ") (JS.split (Ascii.ascii_of_nat 10) qtText) ]
  | None => []
  end.

(** Lines 93-125: the lines pushed by one iteration of the loop. *)
Definition tweetLines (tweet : Bookmark) : list string :=
  let authorName := or_else (author_name (author tweet)) "Unknown" in
  let username := or_else (author_username (author tweet)) "unknown" in
  let text := escapeMarkdown (or_else (text tweet) "") in
  let createdAt := formatDate (createdAt tweet) in
  let likes := count (likeCount tweet) in
  let retweets := count (retweetCount tweet) in
  let replies := count (replyCount tweet) in
  let tweetUrl :=
    "https://x.com/" +:+ username +:+ "/status/" +:+ id_string (id tweet) in
  [ "## " +:+ authorName +:+ " (@" +:+ username +:+ ")";
    "**Date:** " +:+ createdAt;
    "";
    text;
    "";
    "- Likes: " +:+ likes +:+ " | Retweets: " +:+ retweets
      +:+ " | Replies: " +:+ replies;
    "- [View tweet](" +:+ tweetUrl +:+ ")" ]
  ++ quotedLines (quotedTweet tweet)
  ++ [ ""; "---"; "" ].

(** Lines 81-128. *)
Definition convertToMarkdown (bookmarks : list Bookmark) : string :=
  let lines :=
    [ "# X Bookmarks";
      "";
      "Exported on: " +:+ today;
      "Total bookmarks: " +:+ pretty (length bookmarks);
      "";
      "---";
      "" ] in
  JS.join newline
    (foldl (λ lines tweet, lines ++ tweetLines tweet) lines bookmarks).

Definition usage : string :=
"Convert X/Twitter bookmarks JSON to Markdown

Usage: node convert-bookmarks-to-md.js <input.json> [options]

Options:
  -o, --output FILE   Output file (default: bookmarks-YYYY-MM-DD.md)
  --from YYYY-MM-DD   Include bookmarks from this date (inclusive)
  --to YYYY-MM-DD     Include bookmarks up to this date (inclusive)
  -h, --help          Show this help

Examples:
  node convert-bookmarks-to-md.js bookmarks.json
  node convert-bookmarks-to-md.js bookmarks.json --from 2026-01-15
  node convert-bookmarks-to-md.js bookmarks.json --from 2026-01-15 --to 2026-01-22 -o weekly.md".

(** Lines 130-185.  [process.exit] ends the run; an exception raised
    inside the [try] block is reported by the [catch] clause. *)
Definition main (args : list string) : Outcome :=
  if includes "--help" args || includes "-h" args then
    {| events := [Stdout usage]; status := 0 |}
  else
    let options := parseArgs args in
    let inputFile := or_else (input options) "bookmarks.json" in
    let defaultOutput := "bookmarks-" +:+ today +:+ ".md" in
    let outputFile := or_else (output options) defaultOutput in
    if negb (existsSync inputFile) then
      {| events :=
           [ FsExists inputFile;
             Stderr ("Error: Input file " +:+ quote inputFile +:+ " not found");
             Stderr "Usage: node convert-bookmarks-to-md.js <input.json> [options]" ];
         status := 1 |}
    else
      let caught (before : list Event) (message : string) :=
        {| events :=
             before ++ [Stderr ("Error processing bookmarks: " +:+ message)];
           status := 1 |} in
      let e1 := [FsExists inputFile; FsRead inputFile] in
      match readFileSync inputFile with
      | Throw m => caught e1 m
      | Ok jsonContent =>
          match JSON_parse jsonContent with
          | Throw m => caught e1 m
          | Ok JOther =>
              {| events :=
                   e1 ++ [Stderr "Error: JSON file should contain an array of bookmarks"];
                 status := 1 |}
          | Ok (JArray bookmarks) =>
              let originalCount := length bookmarks in
              let bookmarks' :=
                filterByDate bookmarks (from options) (to options) in
              let markdown := convertToMarkdown bookmarks' in
              let e2 := e1 ++ [FsWrite outputFile markdown] in
              match writeFileSync outputFile markdown with
              | Some m => caught e2 m
              | None =>
                  {| events :=
                       e2
                       ++ (if bool_decide (from options = None ∧ to options = None)
                           then []
                           else [Stdout ("Filtered " +:+ pretty originalCount
                                         +:+ arrow +:+ pretty (length bookmarks')
                                         +:+ " bookmarks")])
                       ++ [Stdout ("Successfully converted "
                                   +:+ pretty (length bookmarks')
                                   +:+ " bookmarks to " +:+ outputFile)];
                     status := 0 |}
              end
          end
      end.
End convert.
End Convert.

(* ===================================================================== *)
(** * filter-bookmarks.js                                                 *)
(* ===================================================================== *)

Module FilterTool.
Section filter_tool.
Context `{Host}.

(** Lines 238-247: always [bookmarks.filter(...)]. *)
Definition filterByDate (bookmarks : list Bookmark)
           (fromDate toDate : option JS.Date) : list Bookmark :=
  filter (λ b, keeps fromDate toDate b) bookmarks.

Definition filterByDate_ref (σ : Store) (bookmarks : Ref)
           (fromDate toDate : option JS.Date) : option (Ref * Store) :=
  xs ← σ !! bookmarks;
  Some (alloc σ (filter (λ b, keeps fromDate toDate b) xs)).

Definition usage : string :=
"Filter X/Twitter bookmarks by date range

Usage: node filter-bookmarks.js <input.json> [options]

Options:
  --from YYYY-MM-DD   Include bookmarks from this date (inclusive)
  --to YYYY-MM-DD     Include bookmarks up to this date (inclusive)
  -o, --output FILE   Output to file (default: stdout)
  -h, --help          Show this help

Examples:
  node filter-bookmarks.js bookmarks.json --from 2026-01-15
  node filter-bookmarks.js bookmarks.json --from 2026-01-15 --to 2026-01-22
  node filter-bookmarks.js bookmarks.json --to 2026-01-20 -o filtered.json".

Definition input_required : string := "Error: Input file required".

(** Lines 249-311. *)
Definition main (args : list string) : Outcome :=
  if bool_decide (length args = 0%nat)
     || includes "--help" args || includes "-h" args then
    {| events := [Stdout usage]; status := 0 |}
  else
    let options := parseArgs args in
    if negb (JS.truthy_opt (input options)) then
      {| events := [Stderr input_required]; status := 1 |}
    else
      let inputFile := default "" (input options) in
      if negb (existsSync inputFile) then
        {| events :=
             [ FsExists inputFile;
               Stderr ("Error: Input file " +:+ quote inputFile +:+ " not found") ];
           status := 1 |}
      else if bool_decide (from options = None ∧ to options = None) then
        {| events :=
             [ FsExists inputFile;
               Stderr "Error: At least one of --from or --to is required" ];
           status := 1 |}
      else
        let caught (before : list Event) (message : string) :=
          {| events :=
               before ++ [Stderr ("Error processing bookmarks: " +:+ message)];
             status := 1 |} in
        let e1 := [FsExists inputFile; FsRead inputFile] in
        match readFileSync inputFile with
        | Throw m => caught e1 m
        | Ok jsonContent =>
            match JSON_parse jsonContent with
            | Throw m => caught e1 m
            | Ok JOther =>
                {| events :=
                     e1 ++ [Stderr "Error: JSON file should contain an array of bookmarks"];
                   status := 1 |}
            | Ok (JArray bookmarks) =>
                let filtered :=
                  filterByDate bookmarks (from options) (to options) in
                let output_ := JSON_stringify filtered in
                let summary :=
                  "Filtered " +:+ pretty (length bookmarks) +:+ arrow
                  +:+ pretty (length filtered) +:+ " bookmarks" in
                if JS.truthy_opt (output options) then
                  let outputFile := default "" (output options) in
                  let e2 := e1 ++ [FsWrite outputFile output_] in
                  match writeFileSync outputFile output_ with
                  | Some m => caught e2 m
                  | None =>
                      {| events :=
                           e2 ++ [ Stderr summary;
                                   Stderr ("Output written to " +:+ outputFile) ];
                         status := 0 |}
                  end
                else
                  {| events :=
                       e1 ++ [ Stdout output_;
                               Stderr (newline +:+ summary) ];
                     status := 0 |}
            end
        end.
End filter_tool.
End FilterTool.

(* ===================================================================== *)
(** * A reference host                                                    *)
(* ===================================================================== *)

(** A machine on which the scripts can be run inside Rocq: local time is
    UTC, the date is fixed, and the file system holds one file.  The
    statements about the scripts below hold for every host; this one
    supplies the concrete runs. *)

Module Reference.
Local Open Scope Z_scope.

(** *** Calendar fields of a time value (YearFromTime, MonthFromTime,
    DateFromTime of ECMAScript) *)

(** The largest year that starts on or before day [d], searched downward
    from an over-estimate. *)
Fixpoint yearDown (fuel : nat) (y d : Z) : Z :=
  match fuel with
  | O => y
  | S fuel' => if JS.DayFromYear y <=? d then y else yearDown fuel' (y - 1) d
  end.

Definition YearFromDay (d : Z) : Z := yearDown 8 (1970 + d / 365 + 1) d.

Fixpoint monthDown (fuel : nat) (leap : bool) (m dayInYear : Z) : Z :=
  match fuel with
  | O => m
  | S fuel' =>
      if JS.monthStart leap m <=? dayInYear then m
      else monthDown fuel' leap (m - 1) dayInYear
  end.

Definition monthNames : list string :=
  [ "January"; "February"; "March"; "April"; "May"; "June"; "July";
    "August"; "September"; "October"; "November"; "December" ].

Definition two (n : Z) : string :=
  if n <? 10 then "0" +:+ pretty n else pretty n.

(** The format the converter asks for, as Node.js prints it for en-US:
    [January 20, 2026 at 04:01 PM]. *)
Definition toLocaleDateString (tza : Z) (d : JS.Date) : string :=
  match d with
  | JS.InvalidDate => "Invalid Date"
  | JS.Time t =>
      let lt := JS.LocalTime tza t in
      let day := JS.Day lt in
      let y := YearFromDay day in
      let leap := JS.InLeapYear y in
      let diy := day - JS.DayFromYear y in
      let m := monthDown 12 leap 11 diy in
      let dt := diy - JS.monthStart leap m + 1 in
      let minutes := (lt mod JS.msPerDay) / 60000 in
      let h := minutes / 60 in
      let h12 := if h mod 12 =? 0 then 12 else h mod 12 in
      default "" (monthNames !! Z.to_nat m) +:+ " " +:+ pretty dt +:+ ", "
        +:+ pretty y +:+ " at " +:+ two h12 +:+ ":" +:+ two (minutes mod 60)
        +:+ (if h <? 12 then " AM" else " PM")
  end.

(** *** [new Date(string)] on two formats: the format of the bookmark
    export, [Tue Jan 20 16:01:16 +0000 2026], and the ISO format
    [2026-01-20T16:01:16Z].  Any other string is an Invalid Date here. *)

Definition monthAbbrev (s : string) : option Z :=
  Z.of_nat <$> list_find (λ n, String.eqb (String.substring 0 3 n) s) monthNames
  ≫= λ p, Some p.1.

Definition nat_of (s : string) : option Z := JS.digits 0 false s.

(** [16:01:16] *)
Definition clock (s : string) : option Z :=
  match JS.split ":" s with
  | [h; m; sec] =>
      h' ← nat_of h; m' ← nat_of m; s' ← nat_of sec;
      Some (JS.MakeTime h' m' s' 0)
  | _ => None
  end.

(** [+0000], [-0530]: the offset in milliseconds *)
Definition zone (s : string) : option Z :=
  match s with
  | String sign hhmm =>
      v ← nat_of hhmm;
      let ms := (v / 100 * 60 + v mod 100) * 60000 in
      if Ascii.eqb sign "+" then Some ms
      else if Ascii.eqb sign "-" then Some (- ms)
      else None
  | EmptyString => None
  end.

Definition fromFields (y m d : Z) (time offset : Z) : JS.Date :=
  match JS.MakeDay y m d with
  | Some day => JS.TimeClip (JS.MakeDate day time - offset)
  | None => JS.InvalidDate
  end.

Definition parseExport (s : string) : option JS.Date :=
  match JS.split " " s with
  | [_; mon; dd; hms; off; yyyy] =>
      m ← monthAbbrev mon; d ← nat_of dd; t ← clock hms;
      o ← zone off; y ← nat_of yyyy;
      Some (fromFields y m d t o)
  | _ => None
  end.

Definition parseISO (s : string) : option JS.Date :=
  match JS.split "T" s with
  | [date; time] =>
      match JS.split "-" date, JS.split "Z" time with
      | [yyyy; mm; dd], [hms; EmptyString] =>
          y ← nat_of yyyy; m ← nat_of mm; d ← nat_of dd; t ← clock hms;
          Some (fromFields y (m - 1) d t 0)
      | _, _ => None
      end
  | _ => None
  end.

Definition Date_parse (s : string) : JS.Date :=
  match parseExport s with
  | Some d => d
  | None => default JS.InvalidDate (parseISO s)
  end.

(** *** JSON text of an array of records, two-space indentation, fields
    in the order of the record type; strings are printed without escapes
    (the sample texts need none). *)

(** An object with the given fields, already rendered, at [indent]. *)
Definition object (indent : string) (fields : list (string * string))
  : string :=
  match fields with
  | [] => "{}"
  | _ =>
      "{" +:+ newline
      +:+ JS.join ("," +:+ newline)
            ((λ f, indent +:+ "  " +:+ quote f.1 +:+ ": " +:+ f.2) <$> fields)
      +:+ newline +:+ indent +:+ "}"
  end.

Definition opt_field {A} (k : string) (f : A → string) (x : option A)
  : list (string * string) :=
  match x with
  | Some v => [(k, f v)]
  | None => []
  end.

Definition author_json (indent : string) (a : Author) : string :=
  object indent (opt_field "name" quote (name a)
                 ++ opt_field "username" quote (username a)).

Definition bookmark_json (b : Bookmark) : string :=
  object "  "
    (match id b with
     | IdString s => [("id", quote s)]
     | IdNumber n => [("id", pretty n)]
     | IdUndefined => []
     end
     ++ opt_field "createdAt" quote (createdAt b)
     ++ opt_field "text" quote (text b)
     ++ opt_field "author" (author_json "    ") (author b)
     ++ opt_field "likeCount" pretty (likeCount b)
     ++ opt_field "retweetCount" pretty (retweetCount b)
     ++ opt_field "replyCount" pretty (replyCount b)
     ++ opt_field "quotedTweet"
          (λ q, object "    "
                  (opt_field "author" (author_json "      ") (qt_author q)
                   ++ opt_field "text" quote (qt_text q)))
          (quotedTweet b)).

Definition JSON_stringify (bs : list Bookmark) : string :=
  match bs with
  | [] => "[]"
  | _ => "[" +:+ newline
         +:+ JS.join ("," +:+ newline)
               ((λ b, "  " +:+ bookmark_json b) <$> bs)
         +:+ newline +:+ "]"
  end.

(** *** The sample export and the file system *)

Definition jan10 : Bookmark :=
  {| id := IdString "1"; createdAt := Some "Sat Jan 10 09:30:00 +0000 2026";
     text := Some "first"; author := Some (mkAuthor (Some "A") (Some "a"));
     likeCount := Some 5; retweetCount := None; replyCount := None;
     quotedTweet := None |}.

Definition jan20 : Bookmark :=
  {| id := IdString "2"; createdAt := Some "Tue Jan 20 16:01:16 +0000 2026";
     text := Some "a<b>c"; author := Some (mkAuthor (Some "B") (Some "b"));
     likeCount := Some 1; retweetCount := Some 2; replyCount := Some 3;
     quotedTweet := None |}.

(** A record whose [createdAt] is no date, and one without the optional
    fields. *)
Definition undated : Bookmark :=
  {| id := IdString "3"; createdAt := Some "not a date";
     text := Some "when?"; author := Some (mkAuthor (Some "C") (Some "c"));
     likeCount := None; retweetCount := None; replyCount := None;
     quotedTweet := None |}.

Definition bare : Bookmark :=
  {| id := IdNumber 4; createdAt := None; text := None; author := None;
     likeCount := None; retweetCount := None; replyCount := None;
     quotedTweet := None |}.


Definition sample : list Bookmark := [jan10; jan20; undated].

Definition files : list (string * string) :=
  [ ("bookmarks.json", JSON_stringify sample);
    ("object.json", "{}") ].

Definition lookup_file (path : string) : option string :=
  snd <$> list_find (λ f, String.eqb f.1 path) files ≫= λ p, Some p.2.

Definition readFileSync (path : string) : result string :=
  match lookup_file path with
  | Some text => Ok text
  | None => Throw ("ENOENT: no such file or directory, open '" +:+ path +:+ "'")
  end.

Definition JSON_parse (text : string) : result Json :=
  if String.eqb text (JSON_stringify sample) then Ok (JArray sample)
  else if String.eqb text "{}" then Ok JOther
  else Throw "Unexpected token".

(** Local time is UTC; every write succeeds. *)
Definition host : Host :=
  Build_Host
    0
    Date_parse
    (toLocaleDateString 0)
    "2026-01-25"
    (λ path, bool_decide (is_Some (lookup_file path)))
    readFileSync
    JSON_parse
    JSON_stringify
    (λ _ _, None).
End Reference.

(* ===================================================================== *)
(** * Notions used to state the properties                                *)
(* ===================================================================== *)

(** The inclusive bound predicate of the range filter on a timestamp:
    [from == null || timestamp >= from] and
    [to == null || timestamp <= to]. *)
Definition in_range (fromDate toDate : option JS.Date) (timestamp : JS.Date)
  : bool :=
  match fromDate with
  | Some f => JS.ge timestamp f
  | None => true
  end
  &&
  match toDate with
  | Some t => JS.le timestamp t
  | None => true
  end.

(** A bound that is unset or a valid date. *)
Definition valid_bound (bound : option JS.Date) : Prop :=
  bound ≠ Some JS.InvalidDate.

(** The escaping as the specification words it, one character at a time:
    [<] becomes [&lt;], [>] becomes [&gt;], any other character stays. *)
Definition escape_char (c : ascii) : string :=
  if Ascii.eqb c "<" then "&lt;"
  else if Ascii.eqb c ">" then "&gt;"
  else String c EmptyString.

Fixpoint escape_spec (s : string) : string :=
  match s with
  | EmptyString => EmptyString
  | String c rest => escape_char c +:+ escape_spec rest
  end.

(** The first seven lines of the document. *)
Definition header `{Host} (total : nat) : list string :=
  [ "# X Bookmarks";
    "";
    "Exported on: " +:+ today;
    "Total bookmarks: " +:+ pretty total;
    "";
    "---";
    "" ].

(** The format [YYYY-MM-DD] of a date argument: three segments separated
    by [-], of four, two and two decimal digits; and the year, month and
    day it writes. *)
Definition is_digit (c : ascii) : bool :=
  let n := Ascii.N_of_ascii c in (N.leb 48 n && N.leb n 57)%bool.

Fixpoint all_digits (n : nat) (s : string) : bool :=
  match n, s with
  | O, EmptyString => true
  | S n', String c rest => is_digit c && all_digits n' rest
  | _, _ => false
  end.

Fixpoint decimal (acc : Z) (s : string) : Z :=
  match s with
  | EmptyString => acc
  | String c rest => decimal (10 * acc + (Z.of_N (Ascii.N_of_ascii c) - 48)) rest
  end.

Definition wellFormed (s : string) : option (Z * Z * Z) :=
  match JS.split "-" s with
  | [yyyy; mm; dd] =>
      if all_digits 4 yyyy && all_digits 2 mm && all_digits 2 dd
      then Some (decimal 0 yyyy, decimal 0 mm, decimal 0 dd)
      else None
  | _ => None
  end.




(** The bounds [--from 2026-01-15 --to 2026-01-22] on the reference host. *)
Definition jan15 : JS.Date := JS.Time 1768435200000.
Definition jan22_end : JS.Date := JS.Time 1769126399999.

(** The run of the filter tool that ends on the missing-input error. *)
Definition missing_input : Outcome :=
  {| events := [Stderr FilterTool.input_required]; status := 1 |}.

(** A run that asks for help. *)
Definition asks_help (args : list string) : bool :=
  includes "--help" args || includes "-h" args.

(** Does the character occur in the string? *)
Fixpoint contains (c : ascii) (s : string) : bool :=
  match s with
  | EmptyString => false
  | String a rest => Ascii.eqb a c || contains c rest
  end.

(** The line feed, the separator of the lines of a text. *)
Definition LF : ascii := Ascii.ascii_of_nat 10.

(* ===================================================================== *)
(** * The range filter                                                    *)
(* ===================================================================== *)

Section range_filter.
Context `{Host}.
Implicit Types (A : list Bookmark) (b : Bookmark) (f t : option JS.Date).

Lemma filter_all_true A :
  filter (λ b, keeps None None b) A = A.
Proof.
  induction A as [|b A IH]; [done|].
  rewrite filter_cons_True by done. by rewrite IH.
Qed.

(** The two scripts filter alike. *)
Lemma filterByDate_agree A f t :
  Convert.filterByDate A f t = FilterTool.filterByDate A f t.
Proof.
  unfold Convert.filterByDate, FilterTool.filterByDate.
  destruct f, t; try done. by rewrite filter_all_true.
Qed.

Lemma elem_of_filterByDate A f t b :
  b ∈ FilterTool.filterByDate A f t ↔ keeps f t b = true ∧ b ∈ A.
Proof.
  unfold FilterTool.filterByDate. rewrite list_elem_of_filter.
  by rewrite Is_true_true.
Qed.

(** A comparison with an Invalid Date is false, so the test lets the
    record through. *)
Lemma keeps_invalid f t b :
  parseTwitterDate (createdAt b) = JS.InvalidDate → keeps f t b = true.
Proof.
  intros Hinv. unfold keeps. rewrite Hinv.
  by destruct f as [[|?]|], t as [[|?]|].
Qed.


(** On valid dates, not being before (after) a bound is being on or
    after (before) it. *)
Lemma keeps_in_range f t b :
  parseTwitterDate (createdAt b) ≠ JS.InvalidDate →
  valid_bound f → valid_bound t →
  keeps f t b = in_range f t (parseTwitterDate (createdAt b)).
Proof.
  unfold keeps, in_range, valid_bound, JS.gt, JS.ge.
  destruct (parseTwitterDate (createdAt b)) as [|c]; [done|].
  intros _ Hf Ht.
  destruct f as [[|x]|], t as [[|y]|]; try done; simpl;
    repeat case_match; lia.
Qed.

Lemma filterByDate_idempotent A f t :
  FilterTool.filterByDate (FilterTool.filterByDate A f t) f t
  = FilterTool.filterByDate A f t.
Proof.
  unfold FilterTool.filterByDate. by apply list_filter_filter_l.
Qed.

(** What [filter] does to the store: a fresh array holding the kept
    records; every array that was there is as before. *)
Lemma alloc_spec (σ : Store) xs r σ' :
  alloc σ xs = (r, σ') →
  σ !! r = None ∧ σ' !! r = Some xs ∧ ∀ a, is_Some (σ !! a) → σ' !! a = σ !! a.
Proof.
  unfold alloc. intros [= <- <-].
  pose proof (is_fresh (dom σ)) as Hfresh.
  rewrite not_elem_of_dom in Hfresh.
  split_and!; [done|by rewrite lookup_insert_eq|].
  intros a [x Ha]. rewrite lookup_insert_ne; [done|]. congruence.
Qed.
End range_filter.

Section range_filter_claims.
Context `{Host}.
Implicit Types (A : list Bookmark) (b : Bookmark) (f t : option JS.Date).

(** C1, amended.  A record whose [createdAt] does not parse is in the
    output of the range filter of both scripts, whichever bounds are set
    or unset: no comparison with an Invalid Date rejects it. *)
Theorem unparseable_record_is_kept A b f t :
  b ∈ A →
  parseTwitterDate (createdAt b) = JS.InvalidDate →
  b ∈ Convert.filterByDate A f t ∧ b ∈ FilterTool.filterByDate A f t.
Proof.
  intros Hin Hinv. rewrite filterByDate_agree.
  split; apply elem_of_filterByDate; auto using keeps_invalid.
Qed.

(** C3, amended.  The output of the range filter is a subsequence of its
    input, in the input's order, and every record in it passed the test
    of the callback: it is not before [from] and not after [to].  For a
    record whose timestamp parsed, and bounds that are unset or valid
    dates, that is the inclusive bound predicate. *)
Theorem filter_subsequence_within_bounds A f t :
  Convert.filterByDate A f t `sublist_of` A
  ∧ FilterTool.filterByDate A f t `sublist_of` A
  ∧ ∀ b,
      b ∈ Convert.filterByDate A f t ∨ b ∈ FilterTool.filterByDate A f t →
      keeps f t b = true
      ∧ (parseTwitterDate (createdAt b) ≠ JS.InvalidDate →
         valid_bound f → valid_bound t →
         in_range f t (parseTwitterDate (createdAt b)) = true).
Proof.
  rewrite filterByDate_agree. split_and!.
  - apply sublist_filter.
  - apply sublist_filter.
  - intros b Hb.
    assert (keeps f t b = true) as Hk.
    { destruct Hb as [Hb|Hb]; by apply elem_of_filterByDate in Hb as [? _]. }
    split; [done|]. intros. by rewrite <- keeps_in_range.
Qed.

(** C5.  With both bounds unset the range filter of either script
    returns its input: [filter(A, null, null) == A]. *)
Theorem filter_unbounded_is_identity A :
  Convert.filterByDate A None None = A
  ∧ FilterTool.filterByDate A None None = A.
Proof. split; [done|]. apply filter_all_true. Qed.

(** With both bounds unset the converter hands back the very array it
    was given and allocates nothing; the filter tool returns a new array
    with the same elements. *)
Lemma filter_unbounded_reference (σ : Store) (a : Ref) A :
  σ !! a = Some A →
  Convert.filterByDate_ref σ a None None = Some (a, σ)
  ∧ ∃ r σ', FilterTool.filterByDate_ref σ a None None = Some (r, σ')
            ∧ r ≠ a ∧ σ' !! r = Some A ∧ σ' !! a = Some A.
Proof.
  intros Ha. split; [done|].
  unfold FilterTool.filterByDate_ref. rewrite Ha. simpl.
  destruct (alloc_spec σ (filter (λ b, keeps None None b) A) _ _ eq_refl)
    as (Hr & Hr' & Hold).
  eexists _, _. split; [reflexivity|]. split; [congruence|]. split.
  - etrans; [exact Hr'|]. by rewrite filter_all_true.
  - etrans; [exact (Hold a (mk_is_Some _ _ Ha))|done].
Qed.

Lemma filterByDate_ref_spec (σ : Store) (a : Ref) A f t :
  σ !! a = Some A →
  (∃ r σ', Convert.filterByDate_ref σ a f t = Some (r, σ')
           ∧ σ' !! r = Some (Convert.filterByDate A f t)
           ∧ ∀ a', is_Some (σ !! a') → σ' !! a' = σ !! a')
  ∧ (∃ r σ', FilterTool.filterByDate_ref σ a f t = Some (r, σ')
             ∧ σ' !! r = Some (FilterTool.filterByDate A f t)
             ∧ ∀ a', is_Some (σ !! a') → σ' !! a' = σ !! a').
Proof.
  intros Ha.
  assert (∃ r σ', FilterTool.filterByDate_ref σ a f t = Some (r, σ')
             ∧ σ' !! r = Some (FilterTool.filterByDate A f t)
             ∧ ∀ a', is_Some (σ !! a') → σ' !! a' = σ !! a') as Hft.
  { unfold FilterTool.filterByDate_ref. rewrite Ha. simpl.
    destruct (alloc_spec σ (filter (λ b, keeps f t b) A) _ _ eq_refl)
      as (Hr & Hr' & Hold).
    eexists _, _. split; [reflexivity|]. by split. }
  split; [|done].
  destruct f, t; try (rewrite filterByDate_agree; exact Hft).
  exists a, σ. by split_and!.
Qed.

(** C6.  Filtering the output of the range filter again with the same
    bounds gives the same records, and the array that was filtered still
    holds the records it held: both calls return, each leaves every
    array of the store as it was, and the two results are equal. *)
Theorem filter_idempotent_and_pure (σ : Store) (a : Ref) A f t :
  σ !! a = Some A →
  Convert.filterByDate (Convert.filterByDate A f t) f t
    = Convert.filterByDate A f t
  ∧ FilterTool.filterByDate (FilterTool.filterByDate A f t) f t
    = FilterTool.filterByDate A f t
  ∧ (∃ r1 σ1 r2 σ2,
       Convert.filterByDate_ref σ a f t = Some (r1, σ1)
       ∧ Convert.filterByDate_ref σ1 r1 f t = Some (r2, σ2)
       ∧ σ1 !! r1 = Some (Convert.filterByDate A f t)
       ∧ σ2 !! r2 = Some (Convert.filterByDate A f t)
       ∧ σ1 !! a = Some A ∧ σ2 !! a = Some A)
  ∧ (∃ r1 σ1 r2 σ2,
       FilterTool.filterByDate_ref σ a f t = Some (r1, σ1)
       ∧ FilterTool.filterByDate_ref σ1 r1 f t = Some (r2, σ2)
       ∧ σ1 !! r1 = Some (FilterTool.filterByDate A f t)
       ∧ σ2 !! r2 = Some (FilterTool.filterByDate A f t)
       ∧ σ1 !! a = Some A ∧ σ2 !! a = Some A).
Proof.
  intros Ha.
  pose proof (filterByDate_idempotent A f t) as Hidem.
  split_and!; [by rewrite !filterByDate_agree|done| |].
  - destruct (filterByDate_ref_spec σ a A f t Ha)
      as [(r1 & σ1 & E1 & Hr1 & Hold1) _].
    destruct (filterByDate_ref_spec σ1 r1 _ f t Hr1)
      as [(r2 & σ2 & E2 & Hr2 & Hold2) _].
    exists r1, σ1, r2, σ2.
    assert (σ1 !! a = Some A) as Ha1 by (by rewrite Hold1).
    split_and!; try done.
    + rewrite Hr2. f_equal. by rewrite !filterByDate_agree.
    + rewrite Hold2; [done|by rewrite Ha1].
  - destruct (filterByDate_ref_spec σ a A f t Ha)
      as [_ (r1 & σ1 & E1 & Hr1 & Hold1)].
    destruct (filterByDate_ref_spec σ1 r1 _ f t Hr1)
      as [_ (r2 & σ2 & E2 & Hr2 & Hold2)].
    exists r1, σ1, r2, σ2.
    assert (σ1 !! a = Some A) as Ha1 by (by rewrite Hold1).
    split_and!; try done.
    + by rewrite Hr2, Hidem.
    + rewrite Hold2; [done|by rewrite Ha1].
Qed.
End range_filter_claims.

Lemma unparseable_record_is_kept_witness :
  Reference.undated ∈ Reference.sample
  ∧ @parseTwitterDate Reference.host (createdAt Reference.undated)
    = JS.InvalidDate
  ∧ Reference.undated
      ∈ @Convert.filterByDate Reference.host Reference.sample
          (Some jan15) (Some jan22_end)
  ∧ Reference.undated
      ∈ @FilterTool.filterByDate Reference.host Reference.sample
          (Some jan15) (Some jan22_end).
Proof.
  assert (Reference.undated ∈ Reference.sample) as Hin
    by (do 2 apply list_elem_of_further; apply list_elem_of_here).
  split; [exact Hin|]. split; [reflexivity|].
  apply (@unparseable_record_is_kept Reference.host); [exact Hin|reflexivity].
Defined.

(** C1 as stated fails: [--from 2026-01-15] is set, the [createdAt] of the
    third sample record is no date, and the record is in the output of
    both scripts' filter. *)
Lemma unparseable_record_not_excluded :
  @parseTwitterDate Reference.host (createdAt Reference.undated)
  = JS.InvalidDate
  ∧ @Convert.filterByDate Reference.host Reference.sample (Some jan15) None
    = [Reference.jan20; Reference.undated]
  ∧ @FilterTool.filterByDate Reference.host Reference.sample (Some jan15) None
    = [Reference.jan20; Reference.undated]
  ∧ ¬ (Reference.undated
         ∉ @FilterTool.filterByDate Reference.host Reference.sample
             (Some jan15) None).
Proof.
  split_and!; [reflexivity|reflexivity|reflexivity|].
  intros Hnot. apply Hnot.
  apply list_elem_of_further, list_elem_of_here.
Qed.

Lemma filter_subsequence_within_bounds_witness :
  @in_range (Some jan15) (Some jan22_end)
     (@parseTwitterDate Reference.host (createdAt Reference.jan20)) = true.
Proof.
  apply (@filter_subsequence_within_bounds Reference.host Reference.sample
           (Some jan15) (Some jan22_end)).
  - left. apply list_elem_of_here.
  - discriminate.
  - discriminate.
  - discriminate.
Defined.

(** C3 as stated fails: with [from <= to] both set, the undated record is
    kept although it satisfies neither [timestamp >= from] nor
    [timestamp <= to]. *)
Lemma kept_record_outside_bound_predicate :
  JS.le jan15 jan22_end = true
  ∧ Reference.undated
      ∈ @FilterTool.filterByDate Reference.host Reference.sample
          (Some jan15) (Some jan22_end)
  ∧ Reference.undated
      ∈ @Convert.filterByDate Reference.host Reference.sample
          (Some jan15) (Some jan22_end)
  ∧ in_range (Some jan15) (Some jan22_end)
      (@parseTwitterDate Reference.host (createdAt Reference.undated)) = false
  ∧ JS.ge (@parseTwitterDate Reference.host (createdAt Reference.undated))
      jan15 = false.
Proof.
  split_and!; try reflexivity;
    apply list_elem_of_further, list_elem_of_here.
Qed.

Lemma filter_idempotent_and_pure_witness :
  ({[ 0%nat := Reference.sample ]} : Store) !! 0%nat = Some Reference.sample
  ∧ @FilterTool.filterByDate Reference.host
      (@FilterTool.filterByDate Reference.host Reference.sample
         (Some jan15) None) (Some jan15) None
    = @FilterTool.filterByDate Reference.host Reference.sample
        (Some jan15) None.
Proof.
  split; [reflexivity|].
  apply (@filter_idempotent_and_pure Reference.host
           {[ 0%nat := Reference.sample ]} 0%nat Reference.sample
           (Some jan15) None).
  reflexivity.
Defined.

(* ===================================================================== *)
(** * The Markdown renderer                                               *)
(* ===================================================================== *)

Section renderer.
Context `{Host}.

Lemma append_cons a (x y : string) : String a x +:+ y = String a (x +:+ y).
Proof. reflexivity. Qed.

Lemma append_assoc (x y z : string) : (x +:+ y) +:+ z = x +:+ y +:+ z.
Proof.
  induction x as [|a x IH]; [done|]. by rewrite !append_cons, IH.
Qed.

Lemma replaceAll_app c by_ (x y : string) :
  JS.replaceAll c by_ (x +:+ y)
  = JS.replaceAll c by_ x +:+ JS.replaceAll c by_ y.
Proof.
  induction x as [|a x IH]; [done|].
  rewrite append_cons. simpl. destruct (Ascii.eqb a c).
  - by rewrite IH, append_assoc.
  - by rewrite IH.
Qed.

Lemma replaceAll_lt_cons c s :
  JS.replaceAll "<" "&lt;" (String c s)
  = (if Ascii.eqb c "<" then "&lt;" else String c EmptyString)
    +:+ JS.replaceAll "<" "&lt;" s.
Proof. simpl. by destruct (Ascii.eqb c "<"). Qed.

(** The second pass does not touch what the first pass wrote. *)
Lemma second_pass_char c :
  JS.replaceAll ">" "&gt;"
    (if Ascii.eqb c "<" then "&lt;" else String c EmptyString)
  = escape_char c.
Proof.
  unfold escape_char. destruct (Ascii.eqb c "<"); [done|].
  simpl. by destruct (Ascii.eqb c ">").
Qed.

Lemma two_passes_escape s :
  JS.replaceAll ">" "&gt;" (JS.replaceAll "<" "&lt;" s) = escape_spec s.
Proof.
  induction s as [|c s IH]; [done|].
  rewrite replaceAll_lt_cons, replaceAll_app, second_pass_char, IH.
  done.
Qed.

(** C7.  [escapeMarkdown] replaces [<] by [&lt;] and [>] by [&gt;] and
    leaves every other character as it is: it is the character-wise
    escaping of the specification; and ["a<b>c"] becomes
    ["a&lt;b&gt;c"]. *)
Theorem escapeMarkdown_escapes_angle_brackets (text : string) :
  Convert.escapeMarkdown text = escape_spec text
  ∧ Convert.escapeMarkdown "a<b>c" = "a&lt;b&gt;c".
Proof.
  split; [|reflexivity].
  unfold Convert.escapeMarkdown. destruct text as [|c s]; [done|].
  apply two_passes_escape.
Qed.

Lemma foldl_push (lines : list string) (bookmarks : list Bookmark) :
  foldl (λ lines tweet, lines ++ Convert.tweetLines tweet) lines bookmarks
  = lines ++ concat (Convert.tweetLines <$> bookmarks).
Proof.
  revert lines. induction bookmarks as [|b bs IH]; intros lines; simpl.
  - by rewrite app_nil_r.
  - by rewrite IH, <- app_assoc.
Qed.

(** The document is the header followed by the lines of each record, in
    the order of the array. *)
Lemma convertToMarkdown_lines (bookmarks : list Bookmark) :
  Convert.convertToMarkdown bookmarks
  = JS.join newline (header (length bookmarks)
                     ++ concat (Convert.tweetLines <$> bookmarks)).
Proof. unfold Convert.convertToMarkdown. by rewrite foldl_push. Qed.

(** C8.  The renderer is a total function of the array, whose document
    is the header and then the lines of each record; in those lines a
    record without [author] has the heading [Unknown (@unknown)] and the
    link of user [unknown], a record without [likeCount] has the count
    0, and a record without [text] has an empty body line. *)
Theorem missing_fields_render_defaults
        (bookmarks : list Bookmark) (tweet : Bookmark) :
  Convert.convertToMarkdown bookmarks
  = JS.join newline (header (length bookmarks)
                     ++ concat (Convert.tweetLines <$> bookmarks))
  ∧ (author tweet = None →
     Convert.tweetLines tweet !! 0%nat = Some "## Unknown (@unknown)"
     ∧ Convert.tweetLines tweet !! 6%nat
       = Some ("- [View tweet](https://x.com/unknown/status/"
               +:+ Convert.id_string (id tweet) +:+ ")"))
  ∧ (likeCount tweet = None →
     Convert.tweetLines tweet !! 5%nat
     = Some ("- Likes: 0 | Retweets: "
             +:+ Convert.count (retweetCount tweet)
             +:+ " | Replies: " +:+ Convert.count (replyCount tweet)))
  ∧ (text tweet = None → Convert.tweetLines tweet !! 3%nat = Some "").
Proof.
  split; [apply convertToMarkdown_lines|].
  unfold Convert.tweetLines.
  split_and!; intros Hnone; rewrite Hnone; [split| |]; reflexivity.
Qed.
End renderer.

Lemma missing_fields_render_defaults_witness :
  (author Reference.bare = None ∧ likeCount Reference.bare = None
   ∧ text Reference.bare = None)
  ∧ @Convert.tweetLines Reference.host Reference.bare
    = [ "## Unknown (@unknown)";
        "**Date:** Unknown date";
        "";
        "";
        "";
        "- Likes: 0 | Retweets: 0 | Replies: 0";
        "- [View tweet](https://x.com/unknown/status/4)";
        ""; "---"; "" ]
  ∧ @Convert.tweetLines Reference.host Reference.bare !! 0%nat
    = Some "## Unknown (@unknown)"
  ∧ @Convert.tweetLines Reference.host Reference.bare !! 3%nat = Some "".
Proof.
  split; [by split_and!|]. split; [reflexivity|].
  pose proof (@missing_fields_render_defaults Reference.host
                [Reference.bare] Reference.bare) as (_ & Ha & _ & Ht).
  split; [apply Ha; reflexivity|apply Ht; reflexivity].
Defined.

(* ===================================================================== *)
(** * The argument parser                                                 *)
(* ===================================================================== *)

Section parse_args.
Context `{Host}.
Implicit Types (args rest : list string) (arg tok : string)
         (result r : Options).

Lemma body_consume args i result :
  body args i result
  = let '(result', took) :=
      consume result (default "" (args !! i)) (args !! (i + 1)%nat) in
    ((if took then i + 1 else i)%nat, result').
Proof. unfold body, consume. by destruct (branch _ _ _). Qed.

Lemma head_drop args i : head (drop i args) = args !! i.
Proof.
  revert i. induction args as [|a args IH]; intros [|i]; simpl; auto.
Qed.

Lemma tail_drop args i : tail (drop i args) = drop (S i) args.
Proof.
  revert i. induction args as [|a args IH]; intros [|i]; simpl; auto.
Qed.

Lemma loop_run fuel args i result :
  loop fuel args i result = run fuel (drop i args) result.
Proof.
  revert i result. induction fuel as [|fuel IH]; intros i result; [done|].
  simpl. destruct (Nat.ltb_spec i (length args)) as [Hlt|Hge].
  - destruct (lookup_lt_is_Some_2 args i Hlt) as [arg Harg].
    rewrite (drop_S _ _ _ Harg), body_consume, Harg. simpl.
    rewrite head_drop, Nat.add_1_r.
    destruct (consume result arg (args !! S i)) as [result' [|]].
    + rewrite IH. by rewrite tail_drop.
    + by rewrite IH.
  - by rewrite drop_ge.
Qed.

Lemma reach_past fuel args i result k :
  (k < i)%nat → reach fuel args i result k = None.
Proof.
  revert i result. induction fuel as [|fuel IH]; intros i result Hk; [done|].
  simpl. destruct (i <? length args)%nat; [|done].
  destruct (Nat.eqb_spec i k) as [->|_]; [lia|].
  destruct (body args i result) as [i' result'] eqn:E.
  apply IH. rewrite body_consume in E.
  destruct (consume _ _ _) as [? [|]]; simplify_eq; lia.
Qed.

Lemma reach_visit fuel args i result k :
  (i ≤ k)%nat →
  reach fuel args i result k = visit fuel (drop i args) result (k - i).
Proof.
  revert i result. induction fuel as [|fuel IH]; intros i result Hik; [done|].
  simpl. destruct (Nat.ltb_spec i (length args)) as [Hlt|Hge].
  - destruct (lookup_lt_is_Some_2 args i Hlt) as [arg Harg].
    rewrite (drop_S _ _ _ Harg).
    destruct (Nat.eqb_spec i k) as [->|Hne].
    { by rewrite Nat.sub_diag. }
    destruct (k - i)%nat as [|k'] eqn:Ek; [lia|].
    rewrite body_consume, Harg. simpl. rewrite head_drop, Nat.add_1_r.
    destruct (consume result arg (args !! S i)) as [result' [|]].
    + destruct k' as [|k''].
      * apply reach_past. lia.
      * rewrite IH by lia. rewrite tail_drop. f_equal. lia.
    + rewrite IH by lia. f_equal. lia.
  - by rewrite drop_ge.
Qed.

(** Fuel beyond the number of tokens changes nothing. *)
Lemma run_fuel fuel fuel' args result :
  (length args ≤ fuel)%nat → (length args ≤ fuel')%nat →
  run fuel args result = run fuel' args result.
Proof.
  revert fuel' args result.
  induction fuel as [|fuel IH]; intros [|fuel'] [|arg rest] result;
    simpl; intros Hf Hf'; try done; try lia.
  destruct (consume result arg (head rest)) as [result' [|]].
  - apply IH; destruct rest; simpl in *; lia.
  - apply IH; lia.
Qed.

(** The next token matters to the choice of the branch only through its
    truthiness. *)
Lemma consume_took result arg next result' :
  consume result arg next = (result', true) → JS.truthy_opt next = true.
Proof.
  unfold consume, branch.
  destruct (JS.truthy_opt next); [done|].
  rewrite !andb_false_r. by repeat case_match.
Qed.

Lemma consume_not_took result arg next next' result' :
  JS.truthy_opt next = true →
  consume result arg next = (result', false) →
  consume result arg next' = (result', false).
Proof.
  unfold consume, branch. intros ->. rewrite !andb_true_r.
  destruct (String.eqb arg "--from"); [done|].
  destruct (String.eqb arg "--to"); [done|].
  destruct (String.eqb arg "-o" || String.eqb arg "--output"); [done|].
  simpl. by repeat case_match.
Qed.

Lemma truthy_ne tok : tok ≠ "" → JS.truthy tok = true.
Proof. unfold JS.truthy. by destruct (String.eqb_spec tok ""). Qed.

Lemma consume_NoBranch result arg next :
  branch result arg next = NoBranch →
  consume result arg next = (result, false).
Proof. unfold consume. by intros ->. Qed.

Lemma run_delete fuel fuel' args result k r tok :
  (length args ≤ fuel)%nat → (length args ≤ S fuel')%nat →
  visit fuel args result k = Some r →
  args !! k = Some tok →
  branch r tok (args !! S k) = NoBranch →
  tok ≠ "" →
  run fuel' (delete k args) result = run fuel args result.
Proof.
  revert fuel' args result k.
  induction fuel as [|fuel IH]; intros fuel' [|arg rest] result k;
    simpl; intros Hf Hf' Hvisit Htok Hbranch Hne; try done.
  destruct k as [|k'].
  - simplify_eq/=. rewrite <- head_lookup in Hbranch.
    rewrite (consume_NoBranch _ _ _ Hbranch).
    apply run_fuel; lia.
  - simpl in Htok, Hbranch.
    destruct (consume result arg (head rest)) as [result' [|]] eqn:E.
    + destruct k' as [|k'']; [done|].
      apply consume_took in E as Htruthy.
      destruct rest as [|v rest2]; [done|]. simpl in *.
      destruct fuel' as [|fuel']; [lia|]. simpl. rewrite E.
      apply (IH fuel' rest2 result' k''); auto; lia.
    + destruct fuel' as [|fuel'].
      { destruct rest; simpl in *; [done|lia]. }
      simpl.
      assert (consume result arg (head (delete k' rest)) = (result', false))
        as ->.
      { destruct k' as [|k''].
        - destruct rest as [|x rest2]; simplify_eq/=.
          apply (consume_not_took _ _ (Some tok)); [|done].
          simpl. by apply truthy_ne.
        - destruct rest as [|x rest2]; simplify_eq/=. done. }
      apply (IH fuel' rest result' k'); auto; lia.
Qed.
End parse_args.

Section parse_args_claims.
Context `{Host}.

Lemma parseArgs_run (args : list string) :
  parseArgs args = run (length args) args initial.
Proof. unfold parseArgs. by rewrite loop_run. Qed.

Lemma reached_visit (args : list string) (k : nat) :
  reached args k = visit (length args) args initial k.
Proof.
  unfold reached. rewrite reach_visit by lia. by rewrite Nat.sub_0_r.
Qed.

(** Once an input path is set, no later token replaces it. *)
Lemma run_input_kept (fuel : nat) (args : list string) (r : Options) :
  JS.truthy_opt (input r) = true → input (run fuel args r) = input r.
Proof.
  revert args r. induction fuel as [|fuel IH]; intros [|arg rest] r Hin;
    simpl; try done.
  destruct (consume r arg (head rest)) as [r' took] eqn:E.
  assert (input r' = input r) as Hsame.
  { unfold consume, branch in E. rewrite Hin in E. simpl in E.
    rewrite andb_false_r in E. by repeat case_match; simplify_eq. }
  rewrite IH; [done|]. by rewrite Hsame.
Qed.



(** C9, amended.  Take a token that the loop reaches (it is not the
    value of the flag before it) and for which no branch of the loop
    body is taken: it is no flag followed by a value, and it is not
    stored as the input path.  The iteration on that token leaves the
    options as they are; and if the token is not the empty string, the
    argument list without it parses to the same options. *)
Theorem ignored_token_has_no_effect
        (args : list string) (k : nat) (tok : string) (r : Options) :
  args !! k = Some tok →
  reached args k = Some r →
  branch r tok (args !! S k) = NoBranch →
  body args k r = (k, r)
  ∧ (tok ≠ "" → parseArgs (delete k args) = parseArgs args).
Proof.
  intros Htok Hreach Hbranch. split.
  - unfold body. rewrite Htok, Nat.add_1_r. simpl. by rewrite Hbranch.
  - intros Hne. rewrite !parseArgs_run. rewrite reached_visit in Hreach.
    apply (run_delete _ _ _ _ k r tok); auto.
    destruct args; [done|]. rewrite length_delete; [simpl; lia|].
    by eexists.
Qed.
End parse_args_claims.

(** An unknown flag between the input path and [--from]. *)
Lemma ignored_token_has_no_effect_witness :
  let args := ["bookmarks.json"; "--verbose"; "--from"; "2026-01-15"] in
  let r := {| input := Some "bookmarks.json"; output := None;
              from := None; to := None |} in
  args !! 1%nat = Some "--verbose"
  ∧ @reached Reference.host args 1 = Some r
  ∧ branch r "--verbose" (args !! 2%nat) = NoBranch
  ∧ @parseArgs Reference.host ["bookmarks.json"; "--from"; "2026-01-15"]
    = @parseArgs Reference.host args.
Proof.
  intros args r.
  split; [reflexivity|]. split; [reflexivity|]. split; [reflexivity|].
  apply (@ignored_token_has_no_effect Reference.host args 1 "--verbose" r);
    [reflexivity|reflexivity|reflexivity|discriminate].
Defined.

(** C9 as stated fails for the empty token: in
    [in.json --from '' 2026-01-15] the loop reaches the empty string when
    the input path is already set, so it is neither a flag, nor taken as
    the value of [--from] (an empty value is refused), nor stored as the
    input path; yet with it [from] stays unset, and without it [from] is
    January 15. *)
Lemma empty_token_changes_options :
  let args := ["in.json"; "--from"; ""; "2026-01-15"] in
  let r := {| input := Some "in.json"; output := None;
              from := None; to := None |} in
  args !! 2%nat = Some ""
  ∧ @reached Reference.host args 2 = Some r
  ∧ branch r "" (args !! 3%nat) = NoBranch
  ∧ @parseArgs Reference.host args = r
  ∧ @parseArgs Reference.host (delete 2%nat args)
    = {| input := Some "in.json"; output := None;
         from := Some jan15; to := None |}
  ∧ @parseArgs Reference.host (delete 2%nat args)
    ≠ @parseArgs Reference.host args.
Proof. by split_and!. Qed.

(* ===================================================================== *)
(** * The drivers                                                         *)
(* ===================================================================== *)

Section drivers.
Context `{Host}.

End drivers.

Section malformed_dates.
Context `{Host}.



Lemma startsWith_dash c (s : string) :
  JS.startsWith "-" (String c s) = Ascii.eqb "-" c.
Proof.
  change (JS.startsWith "-" (String c s))
    with (Ascii.eqb "-" c && JS.startsWith "" s).
  destruct s; apply andb_true_r.
Qed.

(** A token that does not start with a dash is none of the flags. *)
Lemma not_flag (s flag : string) :
  JS.startsWith "-" s = false → JS.startsWith "-" flag = true →
  String.eqb s flag = false.
Proof.
  destruct s as [|c s], flag as [|c' flag]; try done.
  rewrite !startsWith_dash.
  destruct (Ascii.eqb_spec "-" c), (Ascii.eqb_spec "-" c'); try done.
  intros _ _. simpl. destruct (Ascii.eqb_spec c c'); [congruence|done].
Qed.





End malformed_dates.



(* ===================================================================== *)
(** * The upper bound covers its whole day                                *)
(* ===================================================================== *)

Section date_arguments.
Local Open Scope Z_scope.

Lemma is_digit_value c :
  is_digit c = true →
  JS.digit c = Some (Z.of_N (Ascii.N_of_ascii c) - 48)
  ∧ 0 ≤ Z.of_N (Ascii.N_of_ascii c) - 48 ≤ 9.
Proof.
  unfold is_digit, JS.digit. intros Hd. rewrite Hd. split; [done|].
  apply andb_true_iff in Hd as [H1 H2].
  apply N.leb_le in H1, H2. lia.
Qed.

Lemma is_digit_not_space c : is_digit c = true → JS.is_space c = false.
Proof.
  unfold is_digit, JS.is_space. intros Hd.
  apply andb_true_iff in Hd as [H1 H2]. apply N.leb_le in H1, H2.
  apply orb_false_iff. split.
  - apply N.eqb_neq. lia.
  - apply andb_false_iff. right. apply N.leb_gt. lia.
Qed.

Lemma is_digit_not_sign c :
  is_digit c = true → Ascii.eqb c "+" = false ∧ Ascii.eqb c "-" = false.
Proof.
  intros Hd.
  split.
  - destruct (Ascii.eqb_spec c "+") as [->|]; [discriminate Hd|done].
  - destruct (Ascii.eqb_spec c "-") as [->|]; [discriminate Hd|done].
Qed.

Lemma digits_all (n : nat) (s : string) (acc : Z) (seen : bool) :
  all_digits n s = true → seen = true ∨ (0 < n)%nat →
  JS.digits acc seen s = Some (decimal acc s).
Proof.
  revert s acc seen. induction n as [|n IH]; intros [|c s] acc seen;
    simpl; try done.
  - intros _ [->|?]; [done|lia].
  - intros [Hc Hs]%andb_true_iff _.
    destruct (is_digit_value c Hc) as [-> _]. apply IH; auto.
Qed.

Lemma Number_digits (n : nat) (s : string) :
  all_digits n s = true → (0 < n)%nat →
  JS.Number s = JS.Int (decimal 0 s).
Proof.
  intros Hall Hn. pose proof (digits_all n s 0 false Hall (or_intror Hn)) as Hd.
  destruct n as [|n]; [lia|]. destruct s as [|c s]; [done|].
  apply andb_true_iff in Hall as [Hc _].
  unfold JS.Number.
  change (JS.trimStart (String c s))
    with (if JS.is_space c then JS.trimStart s else String c s).
  rewrite (is_digit_not_space c Hc).
  destruct (is_digit_not_sign c Hc) as [-> ->].
  by rewrite Hd.
Qed.

Lemma decimal_4 (s : string) :
  all_digits 4 s = true → 0 ≤ decimal 0 s ≤ 9999.
Proof.
  destruct s as [|c1 [|c2 [|c3 [|c4 [|]]]]]; try done; simpl;
    try (by rewrite !andb_false_r).
  rewrite !andb_true_r.
  intros [H1 [H2 [H3 H4]%andb_true_iff]%andb_true_iff]%andb_true_iff.
  apply is_digit_value in H1 as [_ ?], H2 as [_ ?], H3 as [_ ?], H4 as [_ ?].
  lia.
Qed.

Lemma decimal_2 (s : string) :
  all_digits 2 s = true → 0 ≤ decimal 0 s ≤ 99.
Proof.
  destruct s as [|c1 [|c2 [|]]]; try done; simpl;
    try (by rewrite !andb_false_r).
  rewrite !andb_true_r.
  intros [H1 H2]%andb_true_iff.
  apply is_digit_value in H1 as [_ ?], H2 as [_ ?].
  lia.
Qed.
End date_arguments.

Section to_bound.
Context `{Host}.
Local Open Scope Z_scope.

Lemma wellFormed_parse (D : string) (y m d : Z) :
  wellFormed D = Some (y, m, d) →
  parseUserDate D
  = JS.newDate LocalTZA (JS.Int y) (JS.Int (m - 1)) (JS.Int d)
  ∧ 0 ≤ y ≤ 9999 ∧ 0 ≤ m ≤ 99 ∧ 0 ≤ d ≤ 99 ∧ JS.truthy D = true.
Proof.
  unfold wellFormed, parseUserDate.
  destruct (JS.split "-" D) as [|a [|b [|c [|]]]] eqn:E; try done.
  destruct (all_digits 4 a) eqn:Ha; [|done].
  destruct (all_digits 2 b) eqn:Hb; [|done].
  destruct (all_digits 2 c) eqn:Hc; [|done].
  intros [= <- <- <-]. simpl.
  rewrite (Number_digits 4 a), (Number_digits 2 b), (Number_digits 2 c)
    by (done || lia).
  split; [done|].
  split; [by apply decimal_4|]. split; [by apply decimal_2|].
  split; [by apply decimal_2|]. by destruct D.
Qed.







End to_bound.


(** The bound of [--to 2026-01-20] on the reference host, and what the
    filter does with the record of January 20 at 16:01:16. *)
Example to_jan20 :
  to (@parseArgs Reference.host ["--to"; "2026-01-20"])
  = Some (JS.Time 1768953599999)
  ∧ @FilterTool.filterByDate Reference.host
      [Reference.jan10; Reference.jan20] None (Some (JS.Time 1768953599999))
    = [Reference.jan10; Reference.jan20]
  ∧ @FilterTool.filterByDate Reference.host
      [Reference.jan10; Reference.jan20] None
      (to (@parseArgs Reference.host ["--to"; "2026-01-19"]))
    = [Reference.jan10].
Proof. by split_and!. Qed.


(* ===================================================================== *)
(** * The scenarios of the specification, run on the reference host       *)
(* ===================================================================== *)

(** Two records dated January 10 and January 20, 2026 and
    [--from 2026-01-15]: only the second remains, and the counts are
    reported as 2 and 1. *)
Example scenario_from_jan15 :
  let options := @parseArgs Reference.host ["bookmarks.json"; "--from"; "2026-01-15"] in
  let records := [Reference.jan10; Reference.jan20] in
  from options = Some jan15
  ∧ @FilterTool.filterByDate Reference.host records (from options) (to options)
    = [Reference.jan20]
  ∧ @Convert.filterByDate Reference.host records (from options) (to options)
    = [Reference.jan20]
  ∧ (length records, length (@FilterTool.filterByDate Reference.host records
                               (from options) (to options)))
    = (2%nat, 1%nat).
Proof. by split_and!. Qed.

(** The lines of a complete record: heading, date, body, counts with the
    missing ones at 0, and the link. *)
Example scenario_render_jan10 :
  @Convert.tweetLines Reference.host Reference.jan10
  = [ "## A (@a)";
      "**Date:** January 10, 2026 at 09:30 AM";
      "";
      "first";
      "";
      "- Likes: 5 | Retweets: 0 | Replies: 0";
      "- [View tweet](https://x.com/a/status/1)";
      ""; "---"; "" ].
Proof. reflexivity. Qed.

(** A file whose JSON is not an array: both scripts end with status 1 on
    the array message and write nothing. *)
Example scenario_not_an_array :
  @FilterTool.main Reference.host ["object.json"; "--from"; "2026-01-15"]
  = {| events :=
         [ FsExists "object.json"; FsRead "object.json";
           Stderr "Error: JSON file should contain an array of bookmarks" ];
       status := 1 |}
  ∧ @Convert.main Reference.host ["object.json"]
    = {| events :=
           [ FsExists "object.json"; FsRead "object.json";
             Stderr "Error: JSON file should contain an array of bookmarks" ];
         status := 1 |}.
Proof. by split. Qed.

(** The missing-input error needs an argument: a flag alone, or an empty
    string. *)
Example scenario_missing_input :
  @FilterTool.main Reference.host ["--from"; "2026-01-15"] = missing_input
  ∧ @FilterTool.main Reference.host [""] = missing_input
  ∧ status (@FilterTool.main Reference.host []) = 0%Z.
Proof. by split_and!. Qed.

(* ===================================================================== *)
(** * More on the range filter                                            *)
(* ===================================================================== *)

Section range_filter_more.
Context `{Host}.
Implicit Types (A : list Bookmark) (b : Bookmark) (f t : option JS.Date).

Lemma keeps_split f t b :
  keeps f t b = keeps f None b && keeps None t b.
Proof.
  unfold keeps. destruct f as [x|], t as [y|]; simpl;
    by repeat case_match.
Qed.

Lemma keeps_invalid_bound_l t b :
  keeps (Some JS.InvalidDate) t b = keeps None t b.
Proof. unfold keeps. by destruct (parseTwitterDate (createdAt b)). Qed.

Lemma keeps_invalid_bound_r f b :
  keeps f (Some JS.InvalidDate) b = keeps f None b.
Proof.
  unfold keeps, JS.gt.
  destruct (parseTwitterDate (createdAt b)), f as [[|?]|]; simpl;
    by repeat case_match.
Qed.

Lemma filterByDate_ext A f t f' t' :
  (∀ b, keeps f t b = keeps f' t' b) →
  FilterTool.filterByDate A f t = FilterTool.filterByDate A f' t'.
Proof.
  intros Hext. unfold FilterTool.filterByDate.
  apply list_filter_iff. intros b. by rewrite Hext.
Qed.

Lemma filter_sublist_mono {X} (P Q : X → Prop)
      `{!∀ x, Decision (P x), !∀ x, Decision (Q x)} (l : list X) :
  (∀ x, P x → Q x) → filter P l `sublist_of` filter Q l.
Proof.
  intros HPQ. induction l as [|x l IH]; [done|].
  rewrite !filter_cons. destruct (decide (P x)) as [HP|HP].
  - destruct (decide (Q x)) as [|HQ]; [by apply sublist_skip|].
    by destruct HQ; apply HPQ.
  - destruct (decide (Q x)); [by apply sublist_cons|done].
Qed.

(** X1.  A record of the input whose timestamp parses is in the output of
    the range filter exactly when the timestamp lies within the inclusive
    bounds (bounds unset or valid dates): nothing in range is dropped and
    nothing out of range is kept. *)
Theorem filter_keeps_exactly_in_range A f t b :
  b ∈ A →
  parseTwitterDate (createdAt b) ≠ JS.InvalidDate →
  valid_bound f → valid_bound t →
  (b ∈ Convert.filterByDate A f t
   ↔ in_range f t (parseTwitterDate (createdAt b)) = true)
  ∧ (b ∈ FilterTool.filterByDate A f t
     ↔ in_range f t (parseTwitterDate (createdAt b)) = true).
Proof.
  intros Hin Hts Hf Ht. rewrite filterByDate_agree, elem_of_filterByDate.
  rewrite keeps_in_range by done. tauto.
Qed.

(** X2.  A bound that is an Invalid Date filters like a bound that is not
    set, for [from] and for [to], in both scripts. *)
Theorem invalid_bound_is_no_bound A f t :
  Convert.filterByDate A (Some JS.InvalidDate) t = Convert.filterByDate A None t
  ∧ Convert.filterByDate A f (Some JS.InvalidDate) = Convert.filterByDate A f None
  ∧ FilterTool.filterByDate A (Some JS.InvalidDate) t
    = FilterTool.filterByDate A None t
  ∧ FilterTool.filterByDate A f (Some JS.InvalidDate)
    = FilterTool.filterByDate A f None.
Proof.
  rewrite !filterByDate_agree.
  split_and!; apply filterByDate_ext; intros b;
    auto using keeps_invalid_bound_l, keeps_invalid_bound_r.
Qed.

(** X3.  Filtering by the lower bound and then by the upper bound, or the
    other way round, is filtering by both bounds at once. *)
Theorem filter_bounds_compose A f t :
  FilterTool.filterByDate (FilterTool.filterByDate A f None) None t
  = FilterTool.filterByDate A f t
  ∧ FilterTool.filterByDate (FilterTool.filterByDate A None t) f None
    = FilterTool.filterByDate A f t
  ∧ Convert.filterByDate (Convert.filterByDate A f None) None t
    = Convert.filterByDate A f t
  ∧ Convert.filterByDate (Convert.filterByDate A None t) f None
    = Convert.filterByDate A f t.
Proof.
  rewrite !filterByDate_agree.
  assert (FilterTool.filterByDate (FilterTool.filterByDate A f None) None t
          = FilterTool.filterByDate A f t) as H1.
  { unfold FilterTool.filterByDate. rewrite list_filter_filter.
    apply list_filter_iff. intros b. rewrite (keeps_split f t b).
    rewrite !Is_true_true, andb_true_iff. tauto. }
  assert (FilterTool.filterByDate (FilterTool.filterByDate A None t) f None
          = FilterTool.filterByDate A f t) as H2.
  { unfold FilterTool.filterByDate. rewrite list_filter_filter.
    apply list_filter_iff. intros b. rewrite (keeps_split f t b).
    rewrite !Is_true_true, andb_true_iff. tauto. }
  by split_and!.
Qed.

(** X4.  Narrowing the interval can only remove records: with a later
    lower bound and an earlier upper bound the output is a subsequence of
    the output for the wider interval. *)
Theorem filter_narrower_bounds A (x x' y y' : Z) :
  (x ≤ x')%Z → (y' ≤ y)%Z →
  FilterTool.filterByDate A (Some (JS.Time x')) (Some (JS.Time y'))
    `sublist_of` FilterTool.filterByDate A (Some (JS.Time x)) (Some (JS.Time y))
  ∧ Convert.filterByDate A (Some (JS.Time x')) (Some (JS.Time y'))
      `sublist_of` Convert.filterByDate A (Some (JS.Time x)) (Some (JS.Time y)).
Proof.
  intros Hx Hy. rewrite !filterByDate_agree.
  assert (FilterTool.filterByDate A (Some (JS.Time x')) (Some (JS.Time y'))
    `sublist_of` FilterTool.filterByDate A (Some (JS.Time x)) (Some (JS.Time y)))
    as Hsub; [|done].
  unfold FilterTool.filterByDate. apply filter_sublist_mono.
  intros b. rewrite !Is_true_true. unfold keeps, JS.gt.
  destruct (parseTwitterDate (createdAt b)) as [|c]; [done|]. simpl.
  repeat case_match; try done; lia.
Qed.

(** X5.  When the lower bound is after the upper bound, no record with a
    parseable timestamp gets through: whatever is kept has an unparseable
    [createdAt]. *)
Theorem filter_empty_interval A (f t : JS.Date) b :
  JS.gt f t = true →
  b ∈ FilterTool.filterByDate A (Some f) (Some t)
  ∨ b ∈ Convert.filterByDate A (Some f) (Some t) →
  parseTwitterDate (createdAt b) = JS.InvalidDate.
Proof.
  intros Hgt Hb. rewrite filterByDate_agree in Hb.
  assert (keeps (Some f) (Some t) b = true) as Hk.
  { destruct Hb as [Hb|Hb]; by apply elem_of_filterByDate in Hb as [? _]. }
  unfold keeps, JS.gt in *.
  destruct (parseTwitterDate (createdAt b)) as [|c]; [done|].
  destruct f as [|x], t as [|y]; simpl in *; try done.
  repeat case_match; try done; lia.
Qed.

(** X6.  Which array the filter returns.  The converter hands back its
    argument itself when both bounds are unset and a newly allocated array
    otherwise; the filter tool always allocates.  No array that existed
    before the call is changed. *)
Theorem filter_result_reference (σ : Store) (a : Ref) A f t :
  σ !! a = Some A →
  (f = None → t = None → Convert.filterByDate_ref σ a f t = Some (a, σ))
  ∧ (f ≠ None ∨ t ≠ None →
     ∃ r σ', Convert.filterByDate_ref σ a f t = Some (r, σ')
             ∧ σ !! r = None
             ∧ σ' !! r = Some (Convert.filterByDate A f t)
             ∧ ∀ a', is_Some (σ !! a') → σ' !! a' = σ !! a')
  ∧ (∃ r σ', FilterTool.filterByDate_ref σ a f t = Some (r, σ')
             ∧ σ !! r = None
             ∧ σ' !! r = Some (FilterTool.filterByDate A f t)
             ∧ ∀ a', is_Some (σ !! a') → σ' !! a' = σ !! a').
Proof.
  intros Ha.
  assert (∃ r σ', FilterTool.filterByDate_ref σ a f t = Some (r, σ')
             ∧ σ !! r = None
             ∧ σ' !! r = Some (FilterTool.filterByDate A f t)
             ∧ ∀ a', is_Some (σ !! a') → σ' !! a' = σ !! a') as Hft.
  { unfold FilterTool.filterByDate_ref. rewrite Ha. simpl.
    destruct (alloc_spec σ (filter (λ b, keeps f t b) A) _ _ eq_refl)
      as (Hr & Hr' & Hold).
    eexists _, _. split; [reflexivity|]. by split_and!. }
  split; [by intros -> ->|]. split; [|done].
  intros Hset. rewrite filterByDate_agree.
  destruct f, t; try exact Hft. by destruct Hset.
Qed.
End range_filter_more.

Lemma filter_keeps_exactly_in_range_witness :
  Reference.jan20 ∈ Reference.sample
  ∧ (Reference.jan20
       ∈ @FilterTool.filterByDate Reference.host Reference.sample
           (Some jan15) (Some jan22_end)
     ↔ in_range (Some jan15) (Some jan22_end)
         (@parseTwitterDate Reference.host (createdAt Reference.jan20)) = true).
Proof.
  assert (Reference.jan20 ∈ Reference.sample) as Hin
    by (apply list_elem_of_further, list_elem_of_here).
  split; [exact Hin|].
  apply (@filter_keeps_exactly_in_range Reference.host Reference.sample
           (Some jan15) (Some jan22_end) Reference.jan20);
    [exact Hin|discriminate|discriminate|discriminate].
Defined.

Lemma filter_narrower_bounds_witness :
  (1768435200000 ≤ 1768867200000)%Z ∧ (1768953599999 ≤ 1769126399999)%Z
  ∧ @FilterTool.filterByDate Reference.host Reference.sample
      (Some (JS.Time 1768867200000)) (Some (JS.Time 1768953599999))
    `sublist_of` @FilterTool.filterByDate Reference.host Reference.sample
                   (Some (JS.Time 1768435200000)) (Some (JS.Time 1769126399999)).
Proof.
  split; [lia|]. split; [lia|].
  apply (@filter_narrower_bounds Reference.host Reference.sample
           1768435200000 1768867200000 1769126399999 1768953599999); lia.
Defined.

Lemma filter_empty_interval_witness :
  JS.gt jan22_end jan15 = true
  ∧ Reference.undated
      ∈ @FilterTool.filterByDate Reference.host Reference.sample
          (Some jan22_end) (Some jan15)
  ∧ @parseTwitterDate Reference.host (createdAt Reference.undated)
    = JS.InvalidDate.
Proof.
  assert (Reference.undated
            ∈ @FilterTool.filterByDate Reference.host Reference.sample
                (Some jan22_end) (Some jan15)) as Hin
    by apply list_elem_of_here.
  split; [reflexivity|]. split; [exact Hin|].
  apply (@filter_empty_interval Reference.host Reference.sample
           jan22_end jan15 Reference.undated); [reflexivity|by left].
Defined.

Lemma filter_result_reference_witness :
  ({[ 0%nat := Reference.sample ]} : Store) !! 0%nat = Some Reference.sample
  ∧ @Convert.filterByDate_ref Reference.host {[ 0%nat := Reference.sample ]}
      0%nat None None
    = Some (0%nat, {[ 0%nat := Reference.sample ]}).
Proof.
  split; [reflexivity|].
  apply (@filter_result_reference Reference.host
           {[ 0%nat := Reference.sample ]} 0%nat Reference.sample None None);
    reflexivity.
Defined.

(* ===================================================================== *)
(** * More on the date arguments                                          *)
(* ===================================================================== *)

Section date_arguments_more.
Context `{Host}.
Local Open Scope Z_scope.

Lemma split_nonempty (sep : ascii) (s : string) : JS.split sep s ≠ [].
Proof.
  destruct s as [|c s]; [done|]. simpl.
  destruct (Ascii.eqb c sep); [done|]. by destruct (JS.split sep s).
Qed.

(** Splitting two strings joined by the separator gives the segments of
    the first followed by the segments of the second. *)
Lemma split_app_sep (sep : ascii) (a b : string) :
  JS.split sep (a +:+ String sep b) = JS.split sep a ++ JS.split sep b.
Proof.
  induction a as [|c a IH].
  - simpl. by rewrite Ascii.eqb_refl.
  - rewrite append_cons. simpl. destruct (Ascii.eqb c sep).
    + by rewrite IH.
    + rewrite IH. pose proof (split_nonempty sep a).
      by destruct (JS.split sep a).
Qed.

Lemma parseUserDate_midnight (value : string) (t : Z) :
  parseUserDate value = JS.Time t →
  JS.LocalTime LocalTZA t mod JS.msPerDay = 0.
Proof.
  unfold parseUserDate, JS.newDate.
  destruct (JS.ToNumber _) as [|y]; [done|].
  destruct (JS.sub _ _) as [|m]; [done|].
  destruct (JS.ToNumber _) as [|d]; [done|].
  destruct (JS.MakeDay _ _ _) as [day|]; [|done].
  unfold JS.TimeClip, JS.UTC, JS.MakeDate, JS.MakeTime, JS.LocalTime.
  case_match; [|done]. intros [= <-].
  replace (day * JS.msPerDay + (0 * 3600000 + 0 * 60000 + 0 * 1000 + 0)
           - LocalTZA + LocalTZA) with (day * JS.msPerDay) by lia.
  by apply Z.mod_mul.
Qed.

Lemma setHours_end_of_day (d : JS.Date) (t : Z) :
  JS.setHours LocalTZA d 23 59 59 999 = JS.Time t →
  JS.LocalTime LocalTZA t mod JS.msPerDay = 86399999.
Proof.
  unfold JS.setHours. destruct d as [|u]; [done|].
  unfold JS.TimeClip, JS.UTC, JS.MakeDate, JS.MakeTime.
  case_match; [|done]. intros [= <-]. unfold JS.LocalTime at 1.
  set (day := JS.Day (JS.LocalTime LocalTZA u)).
  replace (day * JS.msPerDay
           + (23 * 3600000 + 59 * 60000 + 59 * 1000 + 999)
           - LocalTZA + LocalTZA) with (86399999 + day * JS.msPerDay) by lia.
  rewrite Z.mod_add by done. by apply Z.mod_small.
Qed.

(** A property of the options that every step of the loop keeps holds of
    the parsed options. *)
Lemma run_invariant (P : Options → Prop) :
  (∀ r arg next, P r → P (consume r arg next).1) →
  ∀ fuel args r, P r → P (run fuel args r).
Proof.
  intros Hstep. induction fuel as [|fuel IH]; intros [|arg rest] r Hr;
    simpl; try done.
  specialize (Hstep r arg (head rest) Hr).
  destruct (consume r arg (head rest)) as [r' took]. by apply IH.
Qed.

(** X7.  Whatever the argument list, a [from] bound that is a valid date
    is the first millisecond of a local day, and a [to] bound that is a
    valid date is the last millisecond (23:59:59.999) of a local day. *)
Theorem parsed_bounds_are_day_boundaries (args : list string) (t : Z) :
  (from (parseArgs args) = Some (JS.Time t) →
   JS.LocalTime LocalTZA t mod JS.msPerDay = 0)
  ∧ (to (parseArgs args) = Some (JS.Time t) →
     JS.LocalTime LocalTZA t mod JS.msPerDay = 86399999).
Proof.
  rewrite parseArgs_run.
  apply (run_invariant
           (λ r, (from r = Some (JS.Time t) →
                  JS.LocalTime LocalTZA t mod JS.msPerDay = 0)
                 ∧ (to r = Some (JS.Time t) →
                    JS.LocalTime LocalTZA t mod JS.msPerDay = 86399999)));
    [|done].
  intros r arg next [Hf Ht]. unfold consume.
  destruct (branch r arg next); simpl; split; auto.
  - intros [= Hv]. by apply parseUserDate_midnight in Hv.
  - intros [= Hv]. by apply setHours_end_of_day in Hv.
Qed.

(** X8.  [parseUserDate] reads the first three segments only: a value with
    more segments parses like its first three. *)
Theorem parseUserDate_ignores_extra_segments (value extra : string) :
  (3 ≤ length (JS.split "-" value))%nat →
  parseUserDate (value +:+ String "-" extra) = parseUserDate value.
Proof.
  intros Hlen. unfold parseUserDate. rewrite split_app_sep, fmap_app.
  destruct (JS.split "-" value) as [|a [|b [|c rest]]]; simpl in Hlen;
    try lia.
  done.
Qed.




(** X10.  A year from 0 to 99 is read as 1900 plus that year: a
    well-formed date with such a year parses to the same instant as the
    date with the year written in full. *)
Theorem parseUserDate_two_digit_year (D D' : string) (y m d : Z) :
  wellFormed D = Some (y, m, d) → y ≤ 99 →
  wellFormed D' = Some (1900 + y, m, d) →
  parseUserDate D = parseUserDate D'.
Proof.
  intros Hwf Hy Hwf'.
  destruct (wellFormed_parse D y m d Hwf) as (-> & Hy' & _).
  destruct (wellFormed_parse D' _ m d Hwf') as (-> & _).
  unfold JS.newDate, JS.MakeFullYear.
  assert ((0 <=? y) && (y <=? 99) = true) as ->
    by (apply andb_true_iff; split; apply Z.leb_le; lia).
  assert ((0 <=? 1900 + y) && (1900 + y <=? 99) = false) as ->
    by (apply andb_false_iff; right; apply Z.leb_gt; lia).
  done.
Qed.
End date_arguments_more.

Lemma parseUserDate_ignores_extra_segments_witness :
  (3 ≤ length (JS.split "-" "2026-01-20"))%nat
  ∧ @parseUserDate Reference.host "2026-01-20-05"
    = @parseUserDate Reference.host "2026-01-20".
Proof.
  split; [simpl; lia|].
  apply (@parseUserDate_ignores_extra_segments Reference.host
           "2026-01-20" "05").
  simpl. lia.
Defined.


Lemma parseUserDate_two_digit_year_witness :
  wellFormed "0026-01-20" = Some (26, 1, 20)%Z
  ∧ wellFormed "1926-01-20" = Some (1900 + 26, 1, 20)%Z
  ∧ @parseUserDate Reference.host "0026-01-20"
    = @parseUserDate Reference.host "1926-01-20".
Proof.
  split; [reflexivity|]. split; [reflexivity|].
  apply (@parseUserDate_two_digit_year Reference.host
           "0026-01-20" "1926-01-20" 26 1 20); [reflexivity|lia|reflexivity].
Defined.

Lemma parsed_bounds_are_day_boundaries_witness :
  to (@parseArgs Reference.host ["--to"; "2026-01-20"])
  = Some (JS.Time 1768953599999)
  ∧ (JS.LocalTime (@LocalTZA Reference.host) 1768953599999 mod JS.msPerDay
     = 86399999)%Z.
Proof.
  split; [reflexivity|].
  apply (@parsed_bounds_are_day_boundaries Reference.host
           ["--to"; "2026-01-20"] 1768953599999).
  reflexivity.
Defined.

Section selection_by_day.
Context `{Host}.
Local Open Scope Z_scope.




End selection_by_day.


(* ===================================================================== *)
(** * More on the argument parser                                         *)
(* ===================================================================== *)

Section parse_args_more.
Context `{Host}.

Lemma Forall_head_tail {X} (P : X → Prop) (l : list X) :
  Forall P l → (∀ v, head l = Some v → P v) ∧ Forall P (tail l).
Proof.
  intros Hl. destruct Hl as [|x l Hx Hl]; simpl; [by split|].
  split; [by intros v [= <-]|done].
Qed.

(** A property kept by every step on tokens of the argument list holds of
    the parsed options. *)
Lemma run_invariant_tokens (P : Options → Prop) (all : list string) :
  (∀ r arg next, arg ∈ all → (∀ v, next = Some v → v ∈ all) →
                 P r → P (consume r arg next).1) →
  ∀ fuel args r, Forall (λ a, a ∈ all) args → P r → P (run fuel args r).
Proof.
  intros Hstep. induction fuel as [|fuel IH]; intros [|arg rest] r Hall Hr;
    simpl; try done.
  apply Forall_cons_1 in Hall as [Harg Hrest].
  destruct (Forall_head_tail _ _ Hrest) as [Hhead Htail].
  specialize (Hstep r arg (head rest) Harg Hhead Hr).
  destruct (consume r arg (head rest)) as [r' [|]]; by apply IH.
Qed.

Lemma Forall_elem_of_self (args : list string) :
  Forall (λ a, a ∈ args) args.
Proof. by apply Forall_forall. Qed.

Lemma branch_flag (r : Options) (arg : string) (next : option string) :
  match branch r arg next with
  | TakeFrom => arg = "--from" ∧ JS.truthy_opt next = true
  | TakeTo => arg = "--to" ∧ JS.truthy_opt next = true
  | TakeOutput => (arg = "-o" ∨ arg = "--output") ∧ JS.truthy_opt next = true
  | TakeInput => JS.startsWith "-" arg = false
  | NoBranch => True
  end.
Proof.
  unfold branch.
  destruct (String.eqb_spec arg "--from"), (String.eqb_spec arg "--to"),
    (String.eqb_spec arg "-o"), (String.eqb_spec arg "--output"),
    (JS.truthy_opt next), (JS.startsWith "-" arg),
    (JS.truthy_opt (input r)); simpl; auto.
Qed.

Lemma parsed_input_in_args (args : list string) (p : string) :
  input (parseArgs args) = Some p →
  p ∈ args ∧ JS.startsWith "-" p = false.
Proof.
  rewrite parseArgs_run.
  apply (run_invariant_tokens
           (λ r, input r = Some p → p ∈ args ∧ JS.startsWith "-" p = false)
           args); [|apply Forall_elem_of_self|done].
  intros r arg next Harg Hnext Hi. unfold consume.
  pose proof (branch_flag r arg next) as Hb.
  destruct (branch r arg next); simpl; auto.
  by intros [= <-].
Qed.

Lemma from_needs_flag (args : list string) :
  "--from" ∉ args → from (parseArgs args) = None.
Proof.
  intros Hno. rewrite parseArgs_run.
  apply (run_invariant_tokens (λ r, from r = None) args);
    [|apply Forall_elem_of_self|done].
  intros r arg next Harg _ Hr. unfold consume.
  pose proof (branch_flag r arg next) as Hb.
  destruct (branch r arg next); simpl; auto.
  destruct Hb as [-> _]. by destruct Hno.
Qed.

Lemma to_needs_flag (args : list string) :
  "--to" ∉ args → to (parseArgs args) = None.
Proof.
  intros Hno. rewrite parseArgs_run.
  apply (run_invariant_tokens (λ r, to r = None) args);
    [|apply Forall_elem_of_self|done].
  intros r arg next Harg _ Hr. unfold consume.
  pose proof (branch_flag r arg next) as Hb.
  destruct (branch r arg next); simpl; auto.
  destruct Hb as [-> _]. by destruct Hno.
Qed.

Lemma output_needs_flag (args : list string) :
  "-o" ∉ args → "--output" ∉ args → output (parseArgs args) = None.
Proof.
  intros Hno1 Hno2. rewrite parseArgs_run.
  apply (run_invariant_tokens (λ r, output r = None) args);
    [|apply Forall_elem_of_self|done].
  intros r arg next Harg _ Hr. unfold consume.
  pose proof (branch_flag r arg next) as Hb.
  destruct (branch r arg next); simpl; auto.
  destruct Hb as [[-> | ->] _]; [by destruct Hno1|by destruct Hno2].
Qed.

(** X12.  The paths in the parsed options are tokens of the argument
    list: the input path is a token that does not start with a dash, and
    the output path is a non-empty token. *)
Theorem parsed_paths_are_tokens (args : list string) (p : string) :
  (input (parseArgs args) = Some p →
   p ∈ args ∧ JS.startsWith "-" p = false)
  ∧ (output (parseArgs args) = Some p → p ∈ args ∧ p ≠ "").
Proof.
  rewrite parseArgs_run.
  apply (run_invariant_tokens
           (λ r, (input r = Some p → p ∈ args ∧ JS.startsWith "-" p = false)
                 ∧ (output r = Some p → p ∈ args ∧ p ≠ ""))
           args); [|apply Forall_elem_of_self|done].
  intros r arg next Harg Hnext [Hi Ho]. unfold consume.
  pose proof (branch_flag r arg next) as Hb.
  destruct (branch r arg next); simpl; split; auto.
  - destruct Hb as [_ Ht]. intros ->. split; [by apply Hnext|].
    by intros ->.
  - by intros [= <-].
Qed.

(** X13.  A bound or an output path is only ever set by its flag: without
    the token [--from] there is no lower bound, without [--to] no upper
    bound, and without [-o] and [--output] no output path. *)
Theorem options_need_their_flags (args : list string) :
  ("--from" ∉ args → from (parseArgs args) = None)
  ∧ ("--to" ∉ args → to (parseArgs args) = None)
  ∧ ("-o" ∉ args → "--output" ∉ args → output (parseArgs args) = None).
Proof.
  split; [apply from_needs_flag|].
  split; [apply to_needs_flag|apply output_needs_flag].
Qed.

(** X14.  The first argument, when it is not empty and does not start
    with a dash, is the input path, whatever follows it. *)
Theorem first_positional_is_input (path : string) (rest : list string) :
  JS.truthy path = true → JS.startsWith "-" path = false →
  input (parseArgs (path :: rest)) = Some path.
Proof.
  intros Hp Hdash. rewrite parseArgs_run. simpl.
  assert (consume initial path (head rest)
          = ({| input := Some path; output := None;
                from := None; to := None |}, false)) as ->.
  { unfold consume, branch. rewrite !(not_flag path) by done. simpl.
    by rewrite Hdash. }
  by rewrite run_input_kept.
Qed.
End parse_args_more.

Lemma parsed_paths_are_tokens_witness :
  let args := ["--from"; "2026-01-15"; "in.json"; "-o"; "out.json"] in
  input (@parseArgs Reference.host args) = Some "in.json"
  ∧ "in.json" ∈ args ∧ JS.startsWith "-" "in.json" = false.
Proof.
  intros args. split; [reflexivity|].
  apply (@parsed_paths_are_tokens Reference.host args "in.json").
  reflexivity.
Defined.

Lemma options_need_their_flags_witness :
  ("--to" ∉ ["in.json"; "--from"; "2026-01-15"])
  ∧ to (@parseArgs Reference.host ["in.json"; "--from"; "2026-01-15"]) = None.
Proof.
  assert ("--to" ∉ ["in.json"; "--from"; "2026-01-15"]) as Hno
    by (apply (bool_decide_eq_false_1 _); reflexivity).
  split; [exact Hno|].
  by apply (@options_need_their_flags Reference.host
              ["in.json"; "--from"; "2026-01-15"]).
Defined.

Lemma first_positional_is_input_witness :
  JS.truthy "a.json" = true ∧ JS.startsWith "-" "a.json" = false
  ∧ input (@parseArgs Reference.host ["a.json"; "b.json"; "--from"; "x"])
    = Some "a.json".
Proof.
  split; [reflexivity|]. split; [reflexivity|].
  by apply (@first_positional_is_input Reference.host "a.json"
              ["b.json"; "--from"; "x"]).
Defined.

(* ===================================================================== *)
(** * More on the renderer                                                *)
(* ===================================================================== *)

Section renderer_more.

Lemma escapeMarkdown_char_wise (text : string) :
  Convert.escapeMarkdown text = escape_spec text.
Proof.
  unfold Convert.escapeMarkdown. destruct text as [|c s]; [done|].
  apply two_passes_escape.
Qed.

Lemma contains_app (c : ascii) (x y : string) :
  contains c (x +:+ y) = contains c x || contains c y.
Proof.
  induction x as [|a x IH]; [done|].
  rewrite append_cons. simpl. by rewrite IH, orb_assoc.
Qed.

Lemma escape_char_no_angle (a : ascii) :
  contains "<" (escape_char a) = false ∧ contains ">" (escape_char a) = false.
Proof.
  unfold escape_char.
  destruct (Ascii.eqb a "<") eqn:Hlt; [done|].
  destruct (Ascii.eqb a ">") eqn:Hgt; [done|].
  simpl. by rewrite Hlt, Hgt.
Qed.

Lemma escape_spec_app (x y : string) :
  escape_spec (x +:+ y) = escape_spec x +:+ escape_spec y.
Proof.
  induction x as [|a x IH]; [done|].
  rewrite append_cons. simpl. by rewrite IH, append_assoc.
Qed.

Lemma escape_spec_id (text : string) :
  contains "<" text = false → contains ">" text = false →
  escape_spec text = text.
Proof.
  induction text as [|a text IH]; [done|]. simpl.
  intros [Hlt Hlt']%orb_false_iff [Hgt Hgt']%orb_false_iff.
  unfold escape_char. rewrite Hlt, Hgt, IH by done. done.
Qed.

(** X15.  The escaped text contains neither [<] nor [>]. *)
Theorem escapeMarkdown_leaves_no_angle_bracket (text : string) :
  contains "<" (Convert.escapeMarkdown text) = false
  ∧ contains ">" (Convert.escapeMarkdown text) = false.
Proof.
  rewrite escapeMarkdown_char_wise.
  induction text as [|a text [IH1 IH2]]; [done|]. simpl.
  rewrite !contains_app, IH1, IH2.
  by destruct (escape_char_no_angle a) as [-> ->].
Qed.

(** X16.  A text without [<] and [>] comes out of the escaping as it went
    in. *)
Theorem escapeMarkdown_keeps_plain_text (text : string) :
  contains "<" text = false → contains ">" text = false →
  Convert.escapeMarkdown text = text.
Proof.
  intros. rewrite escapeMarkdown_char_wise. by apply escape_spec_id.
Qed.

(** X17.  Escaping twice is escaping once. *)
Theorem escapeMarkdown_idempotent (text : string) :
  Convert.escapeMarkdown (Convert.escapeMarkdown text)
  = Convert.escapeMarkdown text.
Proof.
  rewrite !escapeMarkdown_char_wise.
  apply escape_spec_id.
  - induction text as [|a text IH]; [done|]. simpl.
    rewrite contains_app, IH.
    by destruct (escape_char_no_angle a) as [-> _].
  - induction text as [|a text IH]; [done|]. simpl.
    rewrite contains_app, IH.
    by destruct (escape_char_no_angle a) as [_ ->].
Qed.

(** X18.  Escaping a concatenation is concatenating the escaped parts. *)
Theorem escapeMarkdown_app (x y : string) :
  Convert.escapeMarkdown (x +:+ y)
  = Convert.escapeMarkdown x +:+ Convert.escapeMarkdown y.
Proof. rewrite !escapeMarkdown_char_wise. apply escape_spec_app. Qed.

(** Segments cut at a separator do not contain it. *)
Lemma split_segments_free (sep : ascii) (s : string) :
  Forall (λ x, contains sep x = false) (JS.split sep s).
Proof.
  induction s as [|c s IH]; simpl; [by repeat constructor|].
  destruct (Ascii.eqb c sep) eqn:E.
  - by constructor.
  - destruct (JS.split sep s) as [|w ws]; [by repeat constructor; simpl; rewrite E|].
    apply Forall_cons_1 in IH as [Hw Hws].
    constructor; [|done]. simpl. by rewrite E, Hw.
Qed.

Lemma split_free (sep : ascii) (s : string) :
  contains sep s = false → JS.split sep s = [s].
Proof.
  induction s as [|c s IH]; [done|]. simpl.
  intros [-> Hs]%orb_false_iff. by rewrite (IH Hs).
Qed.

(** Cutting the joined segments at the separator gives the segments
    back. *)
Lemma split_join (sep : ascii) (xs : list string) :
  xs ≠ [] → Forall (λ x, contains sep x = false) xs →
  JS.split sep (JS.join (String sep EmptyString) xs) = xs.
Proof.
  induction xs as [|x [|y ys] IH]; [done| |].
  - intros _ [Hx _]%Forall_cons_1. by apply split_free.
  - intros _ [Hx Hrest]%Forall_cons_1.
    change (JS.join (String sep "") (x :: y :: ys))
      with (x +:+ String sep "" +:+ JS.join (String sep "") (y :: ys)).
    change (String sep "" +:+ JS.join (String sep "") (y :: ys))
      with (String sep (JS.join (String sep "") (y :: ys))).
    rewrite split_app_sep, (split_free _ _ Hx), IH by done. done.
Qed.

Lemma join_prefixed (sep pre : string) (xs : list string) :
  xs ≠ [] →
  pre +:+ JS.join (sep +:+ pre) xs = JS.join sep ((λ l, pre +:+ l) <$> xs).
Proof.
  induction xs as [|x [|y ys] IH]; [done|done|]. intros _.
  change (JS.join (sep +:+ pre) (x :: y :: ys))
    with (x +:+ (sep +:+ pre) +:+ JS.join (sep +:+ pre) (y :: ys)).
  change (JS.join sep ((λ l, pre +:+ l) <$> x :: y :: ys))
    with ((pre +:+ x) +:+ sep
          +:+ JS.join sep ((λ l, pre +:+ l) <$> y :: ys)).
  rewrite <- IH by done. by rewrite !append_assoc.
Qed.

(** X19.  In the block of a quoted tweet every line of the quoted text
    carries the quote marker: the text line of the block, cut at the line
    feeds, is the escaped quoted text cut at the line feeds with [> ] put
    before each line. *)
Theorem quoted_text_lines_are_marked (q : QuotedTweet) :
  ∃ line,
    Convert.quotedLines (Some q) !! 2%nat = Some line
    ∧ JS.split LF line
      = (λ l, "> " +:+ l)
          <$> JS.split LF (Convert.escapeMarkdown
                             (Convert.or_else (qt_text q) "")).
Proof.
  set (text := Convert.escapeMarkdown (Convert.or_else (qt_text q) "")).
  exists ("> " +:+ JS.join (String LF "" +:+ "> ") (JS.split LF text)).
  split; [reflexivity|].
  pose proof (split_nonempty LF text) as Hne.
  pose proof (split_segments_free LF text) as Hfree.
  rewrite (join_prefixed (String LF "") "> " _ Hne).
  apply split_join.
  - by destruct (JS.split LF text).
  - apply Forall_fmap. eapply Forall_impl; [exact Hfree|].
    intros x Hx. simpl. by rewrite contains_app, Hx.
Qed.
End renderer_more.

Lemma escapeMarkdown_keeps_plain_text_witness :
  contains "<" "a & b" = false ∧ contains ">" "a & b" = false
  ∧ Convert.escapeMarkdown "a & b" = "a & b".
Proof.
  split; [reflexivity|]. split; [reflexivity|].
  by apply (escapeMarkdown_keeps_plain_text "a & b").
Defined.

(* ===================================================================== *)
(** * More on the drivers                                                 *)
(* ===================================================================== *)

Section drivers_more.
Context `{Host}.

Ltac in_events :=
  solve [ repeat (rewrite ?elem_of_app, ?elem_of_cons, ?elem_of_nil in * );
          intuition (try discriminate; simplify_eq; eauto) ].

(** X20.  Neither script reads a file that [existsSync] reported
    missing: every read in a run is of a path that exists. *)
Theorem reads_only_existing_files (args : list string) (path : string) :
  (FsRead path ∈ events (Convert.main args) → existsSync path = true)
  ∧ (FsRead path ∈ events (FilterTool.main args) → existsSync path = true).
Proof.
  split.
  - unfold Convert.main.
    repeat case_match; simpl; intros Hin;
      repeat match goal with
             | E : negb (existsSync _) = false |- _ =>
                 apply negb_false_iff in E
             end;
      in_events.
  - unfold FilterTool.main.
    repeat case_match; simpl; intros Hin;
      repeat match goal with
             | E : negb (existsSync _) = false |- _ =>
                 apply negb_false_iff in E
             end;
      in_events.
Qed.

(** X21.  The converter writes nothing but the finished document: a write
    in a run means the input file was read and parsed to an array, and
    what is written, to the path of [-o] or else to
    [bookmarks-<date>.md], is the rendering of the filtered array; when
    neither [--from] nor [--to] is among the arguments it is the rendering
    of the whole array. *)
Theorem converter_writes_the_rendering
        (args : list string) (path content : string) :
  FsWrite path content ∈ events (Convert.main args) →
  ∃ text bookmarks,
    readFileSync (Convert.or_else (input (parseArgs args)) "bookmarks.json")
    = Ok text
    ∧ JSON_parse text = Ok (JArray bookmarks)
    ∧ content
      = Convert.convertToMarkdown
          (Convert.filterByDate bookmarks (from (parseArgs args))
                                (to (parseArgs args)))
    ∧ path = Convert.or_else (output (parseArgs args))
                             ("bookmarks-" +:+ today +:+ ".md")
    ∧ ("--from" ∉ args → "--to" ∉ args →
       content = Convert.convertToMarkdown bookmarks).
Proof.
  unfold Convert.main.
  destruct (includes "--help" args || includes "-h" args);
    [simpl; intros Hin; in_events|].
  simpl. destruct (negb (existsSync _)); [simpl; intros Hin; in_events|].
  destruct (readFileSync _) as [text|m] eqn:Hread;
    [|simpl; intros Hin; in_events].
  destruct (JSON_parse text) as [[bookmarks|]|m] eqn:Hjson;
    try (simpl; intros Hin; in_events).
  assert (FsWrite path content
          = FsWrite (Convert.or_else (output (parseArgs args))
                                     ("bookmarks-" +:+ today +:+ ".md"))
              (Convert.convertToMarkdown
                 (Convert.filterByDate bookmarks (from (parseArgs args))
                                       (to (parseArgs args)))) →
          ∃ text0 bookmarks0,
            Ok text = Ok text0 ∧ JSON_parse text0 = Ok (JArray bookmarks0)
            ∧ content
              = Convert.convertToMarkdown
                  (Convert.filterByDate bookmarks0 (from (parseArgs args))
                                        (to (parseArgs args)))
            ∧ path = Convert.or_else (output (parseArgs args))
                                     ("bookmarks-" +:+ today +:+ ".md")
            ∧ ("--from" ∉ args → "--to" ∉ args →
               content = Convert.convertToMarkdown bookmarks0)) as Hdone.
  { intros [= -> ->]. exists text, bookmarks. split_and!; try done.
    intros Hf Ht. by rewrite (from_needs_flag _ Hf), (to_needs_flag _ Ht). }
  destruct (writeFileSync _ _); simpl; intros Hin;
    [|destruct (bool_decide _); simpl in Hin];
    repeat (rewrite ?elem_of_app, ?elem_of_cons, ?elem_of_nil in Hin);
    intuition (try discriminate).
Qed.

(** X22.  The filter tool writes a file only when an output path was
    given, and then what it writes there is the JSON text of the filtered
    array of the input file. *)
Theorem filter_tool_writes_the_filtered_array
        (args : list string) (path content : string) :
  FsWrite path content ∈ events (FilterTool.main args) →
  output (parseArgs args) = Some path
  ∧ ∃ text bookmarks,
      readFileSync (default "" (input (parseArgs args))) = Ok text
      ∧ JSON_parse text = Ok (JArray bookmarks)
      ∧ content
        = JSON_stringify
            (FilterTool.filterByDate bookmarks (from (parseArgs args))
                                     (to (parseArgs args))).
Proof.
  unfold FilterTool.main.
  destruct (_ || _ || _); [simpl; intros Hin; in_events|].
  simpl. destruct (negb (JS.truthy_opt _)); [simpl; intros Hin; in_events|].
  destruct (negb (existsSync _)); [simpl; intros Hin; in_events|].
  destruct (bool_decide _); [simpl; intros Hin; in_events|].
  destruct (readFileSync _) as [text|m] eqn:Hread;
    [|simpl; intros Hin; in_events].
  destruct (JSON_parse text) as [[bookmarks|]|m] eqn:Hjson;
    try (simpl; intros Hin; in_events).
  destruct (output (parseArgs args)) as [out|] eqn:Hout; simpl;
    [|intros Hin; in_events].
  destruct (JS.truthy out); [|simpl; intros Hin; in_events].
  destruct (writeFileSync _ _); simpl; intros Hin; in_events.
Qed.

(** X23.  The standard output of the filter tool carries the help text or
    the JSON text of the filtered array and nothing else, and the JSON
    text only in a run without output path. *)
Theorem filter_tool_stdout_is_the_payload (args : list string) (s : string) :
  Stdout s ∈ events (FilterTool.main args) →
  s = FilterTool.usage
  ∨ (JS.truthy_opt (output (parseArgs args)) = false
     ∧ ∃ text bookmarks,
         readFileSync (default "" (input (parseArgs args))) = Ok text
         ∧ JSON_parse text = Ok (JArray bookmarks)
         ∧ s = JSON_stringify
                 (FilterTool.filterByDate bookmarks (from (parseArgs args))
                                          (to (parseArgs args)))).
Proof.
  unfold FilterTool.main.
  destruct (_ || _ || _); [simpl; intros Hin; in_events|].
  simpl. destruct (negb (JS.truthy_opt _)); [simpl; intros Hin; in_events|].
  destruct (negb (existsSync _)); [simpl; intros Hin; in_events|].
  destruct (bool_decide _); [simpl; intros Hin; in_events|].
  destruct (readFileSync _) as [text|m] eqn:Hread;
    [|simpl; intros Hin; in_events].
  destruct (JSON_parse text) as [[bookmarks|]|m] eqn:Hjson;
    try (simpl; intros Hin; in_events).
  destruct (JS.truthy_opt (output (parseArgs args))) eqn:Hout; simpl.
  - destruct (writeFileSync _ _); simpl; intros Hin; in_events.
  - intros Hin. right. split; [done|]. exists text, bookmarks. in_events.
Qed.

(** X24.  Every run ends with status 0 or 1.  A run that ends with 1 has
    put a message on the error stream; a run of the converter that ends
    with 0 has put nothing there. *)
Theorem status_and_error_stream (args : list string) :
  (status (Convert.main args) = 0%Z ∨ status (Convert.main args) = 1%Z)
  ∧ (status (Convert.main args) = 1%Z
     ↔ ∃ m, Stderr m ∈ events (Convert.main args))
  ∧ (status (FilterTool.main args) = 0%Z
     ∨ status (FilterTool.main args) = 1%Z)
  ∧ (status (FilterTool.main args) = 1%Z →
     ∃ m, Stderr m ∈ events (FilterTool.main args)).
Proof.
  split_and!.
  - unfold Convert.main. repeat case_match; simpl; auto.
  - unfold Convert.main. repeat case_match; simpl;
      (split; [intros Hst; try discriminate Hst;
               eexists; in_events
              |intros [m Hin]; in_events]).
  - unfold FilterTool.main. repeat case_match; simpl; auto.
  - unfold FilterTool.main. repeat case_match; simpl;
      intros Hst; try discriminate Hst; eexists; in_events.
Qed.

(** X25.  Without [--from] and [--to] among its arguments the filter tool
    neither reads nor writes a file, and unless it prints its help it
    ends with status 1. *)
Theorem filter_tool_needs_a_bound (args : list string) :
  "--from" ∉ args → "--to" ∉ args →
  (∀ path, FsRead path ∉ events (FilterTool.main args))
  ∧ (∀ path content, FsWrite path content ∉ events (FilterTool.main args))
  ∧ (args ≠ [] → asks_help args = false →
     status (FilterTool.main args) = 1%Z).
Proof.
  intros Hf Ht. unfold FilterTool.main, asks_help.
  rewrite (from_needs_flag _ Hf), (to_needs_flag _ Ht).
  rewrite (bool_decide_eq_true_2 (None = None ∧ None = None)) by done.
  split_and!.
  - intros path. repeat case_match; simpl; intros Hin; in_events.
  - intros path content. repeat case_match; simpl; intros Hin; in_events.
  - intros Hne Hhelp. rewrite (bool_decide_eq_false_2 (length args = 0%nat))
      by (by destruct args).
    simpl. rewrite Hhelp. by repeat case_match.
Qed.
End drivers_more.

Lemma converter_writes_the_rendering_witness :
  let args := ["bookmarks.json"; "--from"; "2026-01-15"] in
  let content :=
    @Convert.convertToMarkdown Reference.host
      [Reference.jan20; Reference.undated] in
  FsWrite "bookmarks-2026-01-25.md" content
    ∈ events (@Convert.main Reference.host args)
  ∧ ∃ text bookmarks,
      @readFileSync Reference.host
        (Convert.or_else (input (@parseArgs Reference.host args))
                         "bookmarks.json") = Ok text
      ∧ @JSON_parse Reference.host text = Ok (JArray bookmarks)
      ∧ content
        = @Convert.convertToMarkdown Reference.host
            (@Convert.filterByDate Reference.host bookmarks
               (from (@parseArgs Reference.host args))
               (to (@parseArgs Reference.host args)))
      ∧ "bookmarks-2026-01-25.md"
        = Convert.or_else (output (@parseArgs Reference.host args))
                          ("bookmarks-" +:+ @today Reference.host +:+ ".md")
      ∧ ("--from" ∉ args → "--to" ∉ args →
         content = @Convert.convertToMarkdown Reference.host bookmarks).
Proof.
  intros args content.
  assert (FsWrite "bookmarks-2026-01-25.md" content
            ∈ events (@Convert.main Reference.host args)) as Hin
    by (vm_compute; do 2 apply list_elem_of_further; apply list_elem_of_here).
  split; [exact Hin|].
  exact (@converter_writes_the_rendering Reference.host args _ _ Hin).
Defined.

Lemma filter_tool_writes_the_filtered_array_witness :
  let args := ["bookmarks.json"; "--from"; "2026-01-15"; "-o"; "out.json"] in
  let content :=
    Reference.JSON_stringify [Reference.jan20; Reference.undated] in
  FsWrite "out.json" content ∈ events (@FilterTool.main Reference.host args)
  ∧ output (@parseArgs Reference.host args) = Some "out.json".
Proof.
  intros args content.
  assert (FsWrite "out.json" content
            ∈ events (@FilterTool.main Reference.host args)) as Hin
    by (vm_compute; do 2 apply list_elem_of_further; apply list_elem_of_here).
  split; [exact Hin|].
  exact (proj1 (@filter_tool_writes_the_filtered_array Reference.host
                  args _ _ Hin)).
Defined.

Lemma filter_tool_stdout_is_the_payload_witness :
  let args := ["bookmarks.json"; "--from"; "2026-01-15"] in
  let s := Reference.JSON_stringify [Reference.jan20; Reference.undated] in
  Stdout s ∈ events (@FilterTool.main Reference.host args)
  ∧ (s = FilterTool.usage
     ∨ (JS.truthy_opt (output (@parseArgs Reference.host args)) = false
        ∧ ∃ text bookmarks,
            @readFileSync Reference.host
              (default "" (input (@parseArgs Reference.host args))) = Ok text
            ∧ @JSON_parse Reference.host text = Ok (JArray bookmarks)
            ∧ s = @JSON_stringify Reference.host
                    (@FilterTool.filterByDate Reference.host bookmarks
                       (from (@parseArgs Reference.host args))
                       (to (@parseArgs Reference.host args))))).
Proof.
  intros args s.
  assert (Stdout s ∈ events (@FilterTool.main Reference.host args)) as Hin
    by (vm_compute; do 2 apply list_elem_of_further; apply list_elem_of_here).
  split; [exact Hin|].
  exact (@filter_tool_stdout_is_the_payload Reference.host args _ Hin).
Defined.

Lemma filter_tool_needs_a_bound_witness :
  let args := ["bookmarks.json"; "-o"; "out.json"] in
  ("--from" ∉ args) ∧ ("--to" ∉ args)
  ∧ @FilterTool.main Reference.host args
    = {| events :=
           [ FsExists "bookmarks.json";
             Stderr "Error: At least one of --from or --to is required" ];
         status := 1 |}
  ∧ status (@FilterTool.main Reference.host args) = 1%Z.
Proof.
  intros args.
  assert ("--from" ∉ args) as Hf
    by (apply (bool_decide_eq_false_1 _); reflexivity).
  assert ("--to" ∉ args) as Ht
    by (apply (bool_decide_eq_false_1 _); reflexivity).
  split; [exact Hf|]. split; [exact Ht|]. split; [reflexivity|].
  apply (@filter_tool_needs_a_bound Reference.host args Hf Ht);
    [discriminate|reflexivity].
Defined.

Lemma reads_only_existing_files_witness :
  FsRead "bookmarks.json"
    ∈ events (@FilterTool.main Reference.host
                ["bookmarks.json"; "--from"; "2026-01-15"])
  ∧ @existsSync Reference.host "bookmarks.json" = true.
Proof.
  assert (FsRead "bookmarks.json"
            ∈ events (@FilterTool.main Reference.host
                        ["bookmarks.json"; "--from"; "2026-01-15"])) as Hin
    by (vm_compute; apply list_elem_of_further, list_elem_of_here).
  split; [exact Hin|].
  exact (proj2 (@reads_only_existing_files Reference.host _ _) Hin).
Defined.

Section default_input.
Context `{Host}.

(** X26.  When every argument starts with a dash (or there is none) and
    none asks for help, the converter takes [bookmarks.json] as its input:
    the first thing the run does is to look for that file. *)
Theorem converter_default_input (args : list string) :
  Forall (λ a, JS.startsWith "-" a = true) args →
  asks_help args = false →
  input (parseArgs args) = None
  ∧ ∃ rest, events (Convert.main args) = FsExists "bookmarks.json" :: rest.
Proof.
  intros Hdash Hhelp.
  assert (input (parseArgs args) = None) as Hin.
  { destruct (input (parseArgs args)) as [p|] eqn:E; [|done].
    destruct (parsed_input_in_args args p E) as [Hp Hno].
    rewrite Forall_forall in Hdash. by rewrite (Hdash p Hp) in Hno. }
  split; [done|].
  unfold Convert.main. unfold asks_help in Hhelp. rewrite Hhelp, Hin. simpl.
  repeat case_match; simpl; by eexists.
Qed.
End default_input.

Lemma converter_default_input_witness :
  Forall (λ a, JS.startsWith "-" a = true) ["--from"; "--verbose"]
  ∧ asks_help ["--from"; "--verbose"] = false
  ∧ input (@parseArgs Reference.host ["--from"; "--verbose"]) = None
  ∧ ∃ rest, events (@Convert.main Reference.host ["--from"; "--verbose"])
            = FsExists "bookmarks.json" :: rest.
Proof.
  assert (Forall (λ a, JS.startsWith "-" a = true) ["--from"; "--verbose"])
    as Hdash by (by repeat constructor).
  split; [exact Hdash|]. split; [reflexivity|].
  by apply (@converter_default_input Reference.host).
Defined.
